(** * Text-to-Speech: the Edge TTS wrapper (main.py) and its HTTP service
    (tts_api.py), embedded as executable Rocq definitions.

    The program is Python glue around external collaborators (the synthesis
    service, the translation service, the shell, asyncio, the file system).
    Each collaborator is a field of the record [World]: a stub that says how
    the call ends. Calls made to the outside are recorded, in order, as
    [event]s. Python values keep their dynamic types ([pyval]); Python
    exceptions are values of [exn], restricted to subclasses of [Exception]
    (KeyboardInterrupt and SystemExit are outside the model). Imports,
    constructors, [print] and [tempfile.mkdtemp] are taken to succeed.
    Coroutines run to completion where they are awaited: the pipeline has
    no concurrent step. *)

From Stdlib Require Import ZArith List String Ascii Bool Arith Lia Floats DecimalString DecimalNat.
Import ListNotations.
Set Warnings "-register-all".
Local Open Scope string_scope.
Local Open Scope list_scope.

(* ------------------------------------------------------------------ *)
(** ** Python values, as json.load produces them *)

Module Python.

(** A [str] is a Rocq string, one element per character; an [int] is
    unbounded; a [float] is a binary64; a [dict] keeps its items in order. *)
Inductive pyval : Type :=
| PyNone
| PyBool (b : bool)
| PyInt (n : Z)
| PyFloat (f : float)
| PyStr (s : string)
| PyList (l : list pyval)
| PyDict (items : list (string * pyval)).

(** Exception classes the program meets. [JSONDecodeError] and
    [UnicodeDecodeError] are subclasses of [ValueError]. *)
Inductive exn_class : Type :=
| Exception | RuntimeError | TypeError | AttributeError | KeyError
| ValueError | JSONDecodeError | UnicodeDecodeError | OSError.

(** An exception object: its class, and [str(e)]. *)
Record exn : Type := mkExn { exn_cls : exn_class; exn_str : string }.

Inductive result (A : Type) : Type :=
| Returns (a : A)
| Raises (e : exn).
Arguments Returns {A} a.
Arguments Raises {A} e.

Definition isinstance_RuntimeError (e : exn) : bool :=
  match exn_cls e with RuntimeError => true | _ => false end.

Definition isinstance_JSONDecodeError (e : exn) : bool :=
  match exn_cls e with JSONDecodeError => true | _ => false end.

(** The double quote character, for shell commands. *)
Definition dquote : string := String (ascii_of_nat 34) EmptyString.

(** [str(n)] for a non-negative machine-independent integer. *)
Definition str_of_nat (n : nat) : string := NilEmpty.string_of_uint (Nat.to_uint n).

(** [needle in hay] on two [str]. *)
Fixpoint str_contains (needle hay : string) : bool :=
  prefix needle hay ||
  match hay with
  | EmptyString => false
  | String _ rest => str_contains needle rest
  end.

(** [s[:n]] on a [str]. *)
Definition str_take (n : nat) (s : string) : string := substring 0 n s.

(** The characters of a [str], each a [str] of length one. *)
Fixpoint str_chars (s : string) : list pyval :=
  match s with
  | EmptyString => []
  | String c rest => PyStr (String c EmptyString) :: str_chars rest
  end.

(** [bool(v)]: what [if v] and [not v] test. *)
Definition truthy (v : pyval) : bool :=
  match v with
  | PyNone => false
  | PyBool b => b
  | PyInt n => negb (n =? 0)%Z
  | PyFloat f => negb (PrimFloat.eqb f 0%float)
  | PyStr s => negb (s =? "")
  | PyList l => match l with [] => false | _ :: _ => true end
  | PyDict d => match d with [] => false | _ :: _ => true end
  end.

Definition type_name (v : pyval) : string :=
  match v with
  | PyNone => "NoneType"
  | PyBool _ => "bool"
  | PyInt _ => "int"
  | PyFloat _ => "float"
  | PyStr _ => "str"
  | PyList _ => "list"
  | PyDict _ => "dict"
  end.

(** A parsed JSON object has each key once; lookup takes the entry. *)
Fixpoint dict_lookup (k : string) (items : list (string * pyval)) : option pyval :=
  match items with
  | [] => None
  | (k', v) :: rest => if k' =? k then Some v else dict_lookup k rest
  end.

(** [v.get(k, default)]. Only a dict has the method. *)
Definition py_get (v : pyval) (k : string) (default : pyval) : result pyval :=
  match v with
  | PyDict items =>
      Returns (match dict_lookup k items with Some x => x | None => default end)
  | _ => Raises (mkExn AttributeError
                   ("'" ++ type_name v ++ "' object has no attribute 'get'"))
  end.

Definition is_str (k : string) (v : pyval) : bool :=
  match v with PyStr s => s =? k | _ => false end.

(** [k in v] for a [str] k: key of a dict, element of a list, substring of
    a str; the other types are not containers. *)
Definition py_in (k : string) (v : pyval) : result bool :=
  match v with
  | PyDict items => Returns (match dict_lookup k items with Some _ => true | None => false end)
  | PyList l => Returns (existsb (is_str k) l)
  | PyStr s => Returns (str_contains k s)
  | _ => Raises (mkExn TypeError
                   ("argument of type '" ++ type_name v ++ "' is not iterable"))
  end.

(** [v[k]] for a [str] k. *)
Definition py_getitem (v : pyval) (k : string) : result pyval :=
  match v with
  | PyDict items =>
      match dict_lookup k items with
      | Some x => Returns x
      | None => Raises (mkExn KeyError ("'" ++ k ++ "'"))
      end
  | PyList _ => Raises (mkExn TypeError "list indices must be integers or slices, not str")
  | PyStr _ => Raises (mkExn TypeError "string indices must be integers, not 'str'")
  | _ => Raises (mkExn TypeError ("'" ++ type_name v ++ "' object is not subscriptable"))
  end.

Definition isinstance_list (v : pyval) : bool :=
  match v with PyList _ => true | _ => false end.

(** [v[:n]]. *)
Definition py_slice_to (n : nat) (v : pyval) : result pyval :=
  match v with
  | PyStr s => Returns (PyStr (str_take n s))
  | PyList l => Returns (PyList (firstn n l))
  | PyDict _ => Raises (mkExn KeyError ("slice(None, " ++ str_of_nat n ++ ", None)"))
  | _ => Raises (mkExn TypeError ("'" ++ type_name v ++ "' object is not subscriptable"))
  end.

(** The items a [for] loop draws from [v]. *)
Definition py_iter (v : pyval) : result (list pyval) :=
  match v with
  | PyList l => Returns l
  | PyStr s => Returns (str_chars s)
  | PyDict items => Returns (map (fun kv => PyStr (fst kv)) items)
  | _ => Raises (mkExn TypeError ("'" ++ type_name v ++ "' object is not iterable"))
  end.

(** [enumerate(l)], counting from [start]. *)
Fixpoint enumerate_from {A : Type} (start : nat) (l : list A) : list (nat * A) :=
  match l with
  | [] => []
  | x :: rest => (start, x) :: enumerate_from (S start) rest
  end.

Definition enumerate {A : Type} (l : list A) : list (nat * A) := enumerate_from 0 l.

(** A formatted string literal whose pieces are kept apart: literal text, a
    value formatted by [str()], or the elapsed-seconds figure of speak_async. *)
Inductive frag : Type :=
| Lit (s : string)
| Val (v : pyval)
| Elapsed.

Definition fstring : Type := list frag.

End Python.
Export Python.

(* ------------------------------------------------------------------ *)
(** ** The outside world, and the monad the program runs in *)

Module Runtime.

(** What the program does to the outside, in order. *)
Inductive event : Type :=
| Print (line : fstring)                 (* print(...) *)
| PrintTraceback                         (* traceback.print_exc() *)
| Translate (text : pyval) (dest : string)   (* translator.translate called *)
| Synthesize (text voice : pyval) (rate volume : option pyval) (output_file : pyval)
                                         (* edge_tts asked to speak into output_file *)
| AudioSaved (output_file : pyval)       (* communicate.save returned: the file is written *)
| System (cmd : fstring)                 (* os.system called *)
| WebbrowserOpen (path : pyval)          (* webbrowser.open called *)
| Sleep (seconds : Z)                    (* time.sleep *)
| NewEventLoop                           (* asyncio.new_event_loop() *)
| SetEventLoop                           (* asyncio.set_event_loop(thread_loop) *)
| LoopClose                              (* loop.close() *)
| ThreadStart                            (* thread.start() *)
| ThreadJoin                             (* thread.join() *)
| Mkdtemp                                (* tempfile.mkdtemp() *)
| WriteUpload (path : string)            (* the upload written to json_path *)
| Rmtree (path : string).                (* shutil.rmtree(temp_dir, ignore_errors=True) *)

(** The external collaborators, as stubs. A stub answers [Returns] when the
    call comes back and [Raises] when it throws. *)
Record World : Type := {
  (** googletrans: [translator.translate(text, dest=...).text], a [str]. *)
  translator_translate : pyval -> string -> result string;
  (** edge_tts, lines 21-35 of main.py taken together: the import,
      [Communicate(text, voice)], the two optional setters and
      [await communicate.save(output_file)]. Rate and volume reach the
      library only when it has the setter. *)
  edge_tts_save : pyval -> pyval -> option pyval -> option pyval -> pyval -> result unit;
  has_set_rate : bool;
  has_set_volume : bool;
  (** [os.name] and [platform.system()]. *)
  os_name : string;
  platform_system : string;
  (** [os.system(cmd)]: the exit status. *)
  os_system : fstring -> result Z;
  (** [webbrowser.open(path)]. *)
  webbrowser_open : pyval -> result bool;
  (** The calling thread of [speak]: [None] when no event loop runs in it;
      [Some msg] when one does, and asyncio's [run_until_complete] refuses
      with [RuntimeError(msg)]. *)
  running_loop : option string;
  (** [open(path, "r", encoding="utf-8")] followed by [json.load]. *)
  json_load_path : string -> result pyval;
  (** tts_api.py: the module constant, [tempfile.mkdtemp()] and [os.path]. *)
  OUTPUT_DIR : string;
  mkdtemp : string;
  os_path_join : string -> string -> string;
  os_path_basename : string -> string
}.

(** The one EdgeTTS object of the process: [self.voice], [self.rate],
    [self.volume]. *)
Record EdgeTTS : Type := mkEdgeTTS { voice : pyval; rate : pyval; volume : pyval }.

(** A computation reads and writes the engine object, emits events, and
    ends by returning or by raising. The engine keeps its mutations when an
    exception unwinds. *)
Definition M (A : Type) : Type := EdgeTTS -> result A * EdgeTTS * list event.

Definition ret {A : Type} (a : A) : M A := fun s => (Returns a, s, []).

Definition raise {A : Type} (e : exn) : M A := fun s => (Raises e, s, []).

Definition bind {A B : Type} (m : M A) (f : A -> M B) : M B :=
  fun s =>
    match m s with
    | (Returns a, s1, t1) =>
        match f a s1 with
        | (r, s2, t2) => (r, s2, t1 ++ t2)
        end
    | (Raises e, s1, t1) => (Raises e, s1, t1)
    end.

Definition emit (ev : event) : M unit := fun s => (Returns tt, s, [ev]).

(** The outcome of a call to a collaborator. *)
Definition call {A : Type} (r : result A) : M A := fun s => (r, s, []).

Definition get_self : M EdgeTTS := fun s => (Returns s, s, []).

Definition put_self (s' : EdgeTTS) : M unit := fun _ => (Returns tt, s', []).

(** [try: body / except C as e: handler e], where [catches] is the test
    [isinstance(e, C)]; an exception of another class goes on up. *)
Definition try_except {A : Type} (body : M A) (catches : exn -> bool)
    (handler : exn -> M A) : M A :=
  fun s =>
    match body s with
    | (Returns a, s1, t1) => (Returns a, s1, t1)
    | (Raises e, s1, t1) =>
        if catches e then
          match handler e s1 with
          | (r, s2, t2) => (r, s2, t1 ++ t2)
          end
        else (Raises e, s1, t1)
    end.

(** [except Exception] and the bare [except:] catch every modelled class. *)
Definition any_Exception (e : exn) : bool := true.

(** [try: body / finally: fin]. *)
Definition try_finally {A : Type} (body : M A) (fin : M unit) : M A :=
  fun s =>
    match body s with
    | (r, s1, t1) =>
        match fin s1 with
        | (Returns _, s2, t2) => (r, s2, t1 ++ t2)
        | (Raises e, s2, t2) => (Raises e, s2, t1 ++ t2)
        end
    end.

(** [for x in l: body x]. *)
Fixpoint for_each {A : Type} (l : list A) (body : A -> M unit) : M unit :=
  match l with
  | [] => ret tt
  | x :: rest => bind (body x) (fun _ => for_each rest body)
  end.

(** A [for] loop that also rebinds a local variable [acc]. *)
Fixpoint for_fold {A S : Type} (l : list A) (acc : S) (body : S -> A -> M S) : M S :=
  match l with
  | [] => ret acc
  | x :: rest => bind (body acc x) (fun acc' => for_fold rest acc' body)
  end.

Definition value {A : Type} (r : result A * EdgeTTS * list event) : result A := fst (fst r).
Definition engine {A : Type} (r : result A * EdgeTTS * list event) : EdgeTTS := snd (fst r).
Definition events {A : Type} (r : result A * EdgeTTS * list event) : list event := snd r.

End Runtime.
Export Runtime.

Declare Scope py_scope.
Delimit Scope py_scope with py.
Notation "x <- m ;; k" := (bind m (fun x => k))
  (at level 61, m at next level, right associativity) : py_scope.
Notation "m ;; k" := (bind m (fun _ => k))
  (at level 61, right associativity) : py_scope.
Local Open Scope py_scope.

(* ------------------------------------------------------------------ *)
(** ** main.py *)

Module Main.
Section WithWorld.

Variable w : World.

(** [EdgeTTS.__init__]. *)
Definition EdgeTTS_init : EdgeTTS :=
  mkEdgeTTS (PyStr "hi-IN-MadhurNeural") (PyStr "+0%") (PyStr "+0%").

(** [EdgeTTS._generate_speech] (Speech Adapter). *)
Definition _generate_speech (text output_file : pyval) : M bool :=
  try_except
    (self <- get_self ;;
     let r := if has_set_rate w then Some (rate self) else None in
     let v := if has_set_volume w then Some (volume self) else None in
     emit (Synthesize text (voice self) r v output_file) ;;
     call (edge_tts_save w text (voice self) r v output_file) ;;
     emit (AudioSaved output_file) ;;
     ret true)
    any_Exception
    (fun e =>
       emit (Print [Lit "Error generating speech: "; Lit (exn_str e)]) ;;
       ret false).

Definition set_voice (v : pyval) : M unit :=
  self <- get_self ;; put_self (mkEdgeTTS v (rate self) (volume self)).

Definition set_rate (r : pyval) : M unit :=
  self <- get_self ;; put_self (mkEdgeTTS (voice self) r (volume self)).

Definition set_volume (v : pyval) : M unit :=
  self <- get_self ;; put_self (mkEdgeTTS (voice self) (rate self) v).

(** [EdgeTTS.translate_text] (Translation Adapter). *)
Definition translate_text (text : pyval) (target_language : string) : M pyval :=
  try_except
    (emit (Translate text target_language) ;;
     translated <- call (translator_translate w text target_language) ;;
     ret (PyStr translated))
    any_Exception
    (fun e =>
       emit (Print [Lit "Translation error: "; Lit (exn_str e)]) ;;
       ret text).

(** The shell command of one platform branch of [play_audio]: the program
    name, then the path between double quotes. *)
Definition play_command (prog : string) (file_path : pyval) : fstring :=
  [Lit (prog ++ " " ++ dquote); Val file_path; Lit dquote].

Definition system (cmd : fstring) : M Z :=
  emit (System cmd) ;; call (os_system w cmd).

(** [EdgeTTS.play_audio] (Audio Player). *)
Definition play_audio (file_path : pyval) : M bool :=
  try_except
    (if os_name w =? "nt" then
       system (play_command ("start " ++ dquote ++ dquote) file_path) ;;
       ret true
     else if (os_name w =? "posix") && (platform_system w =? "Darwin") then
       system (play_command "afplay" file_path) ;;
       ret true
     else if os_name w =? "posix" then
       system (play_command "aplay" file_path) ;;
       ret true
     else
       emit (Print [Lit "Unsupported platform for audio playback"]) ;;
       ret false)
    any_Exception
    (fun e =>
       emit (Print [Lit "Error playing audio: "; Lit (exn_str e)]) ;;
       try_except
         (emit (WebbrowserOpen file_path) ;;
          call (webbrowser_open w file_path) ;;
          ret true)
         any_Exception
         (fun _ =>
            emit (Print [Lit "All audio playback methods failed"]) ;;
            ret false)).

(** [EdgeTTS.speak_async]: the pipeline. *)
Definition speak_async (text output_file translate_to_hindi : pyval) : M bool :=
  try_except
    (text <- (if truthy translate_to_hindi then
                t <- translate_text text "hi" ;;
                emit (Print [Lit "Translated text: "; Val t]) ;;
                ret t
              else ret text) ;;
     success <- _generate_speech text output_file ;;
     if negb success then ret false
     else
       emit (Print [Lit "Text processed in "; Elapsed; Lit " seconds"]) ;;
       emit (Print [Lit "Playing audio..."]) ;;
       play_audio output_file ;;
       ret true)
    any_Exception
    (fun e =>
       emit (Print [Lit "Error in Edge TTS: "; Lit (exn_str e)]) ;;
       ret false).

(** [loop.run_until_complete(coro)] on a fresh loop, in a thread whose
    running loop is [running]: asyncio refuses when there is one. *)
Definition run_until_complete {A : Type} (running : option string) (coro : M A) : M A :=
  match running with
  | None => coro
  | Some msg => raise (mkExn RuntimeError msg)
  end.

(** [thread = Thread(target); thread.start(); thread.join()]. The target
    works on the cell it closes over; an exception in it ends the thread
    and leaves the cell as it was. *)
Definition thread_start_join {S : Type} (target : S -> M S) (cell : S) : M S :=
  emit ThreadStart ;;
  cell' <- try_except (target cell) any_Exception (fun _ => ret cell) ;;
  emit ThreadJoin ;;
  ret cell'.

(** [result[0] = b] on a one-element list. *)
Definition set_item0 (result : list bool) (b : bool) : list bool :=
  match result with
  | [] => []
  | _ :: rest => b :: rest
  end.

(** [EdgeTTS.speak] (Synchronous Bridge). *)
Definition speak (text output_file translate_to_hindi : pyval) : M bool :=
  try_except
    (emit NewEventLoop ;;
     try_finally
       (run_until_complete (running_loop w)
          (speak_async text output_file translate_to_hindi))
       (emit LoopClose))
    isinstance_RuntimeError
    (fun e =>
       if str_contains "already running" (exn_str e) then
         emit (Print [Lit "Note: Running in existing event loop, some features may be limited"]) ;;
         let result := [false] in
         let run_in_thread (result : list bool) : M (list bool) :=
           emit NewEventLoop ;;
           emit SetEventLoop ;;
           try_finally
             (b <- run_until_complete None
                     (speak_async text output_file translate_to_hindi) ;;
              ret (set_item0 result b))
             (emit LoopClose) in
         result <- thread_start_join run_in_thread result ;;
         ret (nth 0 result false)
       else raise e).

(** The default of the [output_file] field at zero-based index [i]. *)
Definition default_output_file (i : nat) : string :=
  "output_" ++ str_of_nat (i + 1) ++ ".mp3".

(** One turn of the loop of [process_json_input] (lines 248-273), on the
    local engine [tts]. *)
Definition process_json_request (ireq : nat * pyval) : M unit :=
  let '(i, request) := ireq in
  text <- call (py_get request "text" (PyStr "")) ;;
  voice <- call (py_get request "voice" (PyStr "hi-IN-MadhurNeural")) ;;
  rate <- call (py_get request "rate" (PyStr "+0%")) ;;
  volume <- call (py_get request "volume" (PyStr "+0%")) ;;
  translate_to_hindi <- call (py_get request "translate_to_hindi" (PyBool false)) ;;
  output_file <- call (py_get request "output_file" (PyStr (default_output_file i))) ;;
  if negb (truthy text) then
    emit (Print [Lit "Skipping request #"; Lit (str_of_nat (i + 1)); Lit ": Empty text"])
  else
    head <- call (py_slice_to 30 text) ;;
    emit (Print [Lit "Processing request #"; Lit (str_of_nat (i + 1)); Lit ": '";
                 Val head; Lit "...' with voice "; Val voice]) ;;
    set_voice voice ;;
    set_rate rate ;;
    set_volume volume ;;
    speak text output_file translate_to_hindi ;;
    emit (Sleep 1).

(** [process_json_input] (Batch Processor, the CLI path). *)
Definition process_json_input (json_file_path : string) : M bool :=
  try_except
    (data <- call (json_load_path w json_file_path) ;;
     put_self EdgeTTS_init ;;
     requests <- call (py_get data "requests" (PyList [])) ;;
     items <- call (py_iter requests) ;;
     for_each (enumerate items) process_json_request ;;
     ret true)
    any_Exception
    (fun e =>
       emit (Print [Lit "Error processing JSON input: "; Lit (exn_str e)]) ;;
       ret false).

End WithWorld.
End Main.

(* ------------------------------------------------------------------ *)
(** ** tts_api.py *)

Module TtsApi.
Import Main.

(** What a handler hands back to the framework: a JSON body (a returned
    dict) or a binary file response. *)
Inductive response : Type :=
| JSONBody (body : pyval)
| FileResponse (path : string) (media_type : string) (filename : string).

(** The uploaded file, by what reading it gives: [upload_text] is the
    content written to json_path and read back as UTF-8 text (lines 84-90),
    [upload_json] is [json.load] on it (line 96). *)
Record UploadFile : Type := {
  upload_text : result string;
  upload_json : result pyval
}.

Definition error_body (msg : string) : response :=
  JSONBody (PyDict [("error", PyStr msg)]).

Section WithWorld.

Variable w : World.

(** [os.path.join(dir, name)]: a name that is not a [str] is a TypeError. *)
Definition path_join (dir : string) (name : pyval) : result string :=
  match name with
  | PyStr s => Returns (os_path_join w dir s)
  | _ => Raises (mkExn TypeError
                   ("expected str, bytes or os.PathLike object, not " ++ type_name name))
  end.

(** [generate_speech], on the module's shared [tts_engine]. *)
Definition generate_speech
    (text voice rate volume output_file translate_to_hindi : pyval) : M bool :=
  try_except
    (head <- call (py_slice_to 30 text) ;;
     emit (Print [Lit "Generating speech: '"; Val head; Lit "...'"]) ;;
     set_voice voice ;;
     set_rate rate ;;
     set_volume volume ;;
     success <- speak_async w text output_file translate_to_hindi ;;
     (if success
      then emit (Print [Lit "Speech generation successful: "; Val output_file])
      else emit (Print [Lit "Speech generation failed"])) ;;
     ret success)
    any_Exception
    (fun e =>
       emit (Print [Lit "Error generating speech: "; Lit (exn_str e)]) ;;
       emit PrintTraceback ;;
       ret false).

(** One turn of the request loop of [process_tts_json] (lines 116-136);
    [output_files] is the list the loop appends to. *)
Definition process_tts_request (output_files : list string) (ireq : nat * pyval)
    : M (list string) :=
  let '(i, req) := ireq in
  text <- call (py_get req "text" (PyStr "")) ;;
  if negb (truthy text) then ret output_files
  else
    voice <- call (py_get req "voice" (PyStr "hi-IN-MadhurNeural")) ;;
    rate <- call (py_get req "rate" (PyStr "+0%")) ;;
    volume <- call (py_get req "volume" (PyStr "+0%")) ;;
    translate_to_hindi <- call (py_get req "translate_to_hindi" (PyBool false)) ;;
    output_filename <- call (py_get req "output_file" (PyStr (default_output_file i))) ;;
    output_path <- call (path_join (OUTPUT_DIR w) output_filename) ;;
    success <- generate_speech text voice rate volume (PyStr output_path) translate_to_hindi ;;
    if success then ret (output_files ++ [output_path]) else ret output_files.

(** Lines 138-162: the response built from the files generated. *)
Definition respond (return_first_only : bool) (output_files : list string) : response :=
  match output_files with
  | [] => error_body "No speech files could be generated"
  | first :: others =>
      if return_first_only then
        FileResponse first "audio/mpeg" (os_path_basename w first)
      else if (List.length output_files =? 1)%nat then
        FileResponse first "audio/mpeg" (os_path_basename w first)
      else
        JSONBody (PyDict
          [("message", PyStr ("Generated " ++ str_of_nat (List.length output_files) ++ " audio files"));
           ("files", PyList (map (fun f => PyStr (os_path_basename w f)) output_files));
           ("note", PyStr "Use /get-file/FILENAME to download each file")])
  end.

(** [process_tts_json], the handler of POST /tts. *)
Definition process_tts_json (file : UploadFile) (return_first_only : bool) : M response :=
  emit Mkdtemp ;;
  let temp_dir := mkdtemp w in
  let json_path := os_path_join w temp_dir "input.json" in
  try_finally
    (try_except
       (emit (WriteUpload json_path) ;;
        file_content <- call (upload_text file) ;;
        emit (Print [Lit "Received JSON content: "; Lit file_content]) ;;
        parsed <- try_except
                    (data <- call (upload_json file) ;; ret (inl data))
                    isinstance_JSONDecodeError
                    (fun e => ret (inr (error_body ("Invalid JSON format: " ++ exn_str e)))) ;;
        match parsed with
        | inr early => ret early
        | inl data =>
            has_key <- call (py_in "requests" data) ;;
            malformed <- (if negb has_key then ret true
                          else
                            requests <- call (py_getitem data "requests") ;;
                            ret (negb (isinstance_list requests))) ;;
            if malformed then
              ret (error_body "Invalid JSON format. Expected 'requests' array.")
            else
              requests <- call (py_getitem data "requests") ;;
              if negb (truthy requests) then
                ret (error_body "No requests found in JSON")
              else
                requests_to_process <-
                  (if return_first_only then call (py_slice_to 1 requests)
                   else ret requests) ;;
                items <- call (py_iter requests_to_process) ;;
                output_files <- for_fold (enumerate items) [] process_tts_request ;;
                ret (respond return_first_only output_files)
        end)
       any_Exception
       (fun e =>
          emit PrintTraceback ;;
          ret (error_body ("Error processing request: " ++ exn_str e))))
    (emit (Rmtree temp_dir)).

End WithWorld.
End TtsApi.

Import Main TtsApi.

(* ------------------------------------------------------------------ *)
(** ** Reading a run: what was generated, what was played

    Nothing below is program code: these are the terms the theorems are
    stated in, projections of the event list first, shapes of the input
    after. *)

(** The files synthesis wrote, in order. *)
Fixpoint saved_files (t : list event) : list pyval :=
  match t with
  | [] => []
  | AudioSaved f :: rest => f :: saved_files rest
  | _ :: rest => saved_files rest
  end.

(** The requests handed to the synthesis service, in order, by output file. *)
Fixpoint synthesis_attempts (t : list event) : list pyval :=
  match t with
  | [] => []
  | Synthesize _ _ _ _ f :: rest => f :: synthesis_attempts rest
  | _ :: rest => synthesis_attempts rest
  end.

(** The paths the Audio Player was asked to play: a path shows once per
    shell command and once per fallback to the generic handler. *)
Fixpoint played (t : list event) : list pyval :=
  match t with
  | [] => []
  | System [Lit _; Val p; Lit _] :: rest => p :: played rest
  | WebbrowserOpen p :: rest => p :: played rest
  | _ :: rest => played rest
  end.

(** Everything a run prints, in order. *)
Fixpoint printed (t : list event) : list fstring :=
  match t with
  | [] => []
  | Print line :: rest => line :: printed rest
  | _ :: rest => printed rest
  end.

(** The line the Batch Processor prints when it skips a request, and the
    lines of that kind in a run. *)
Definition skip_line (i : nat) : event :=
  Print [Lit "Skipping request #"; Lit (str_of_nat (i + 1)); Lit ": Empty text"].

Definition is_skip_line (ev : event) : bool :=
  match ev with
  | Print [Lit "Skipping request #"; Lit _; Lit ": Empty text"] => true
  | _ => false
  end.

Definition skip_lines (t : list event) : list event := filter is_skip_line t.

(** The lines the Speech Adapter prints when synthesis throws. *)
Definition is_failure_line (ev : event) : bool :=
  match ev with
  | Print [Lit "Error generating speech: "; Lit _] => true
  | _ => false
  end.

Definition failure_lines (t : list event) : list event := filter is_failure_line t.

(** The synthesis stub that answers every call, and the one that throws on
    every call. *)
Definition synthesis_always_succeeds (w : World) : Prop :=
  forall text voice rate volume output_file,
    edge_tts_save w text voice rate volume output_file = Returns tt.

Definition synthesis_always_fails (w : World) : Prop :=
  forall text voice rate volume output_file,
    exists e, edge_tts_save w text voice rate volume output_file = Raises e.

(** [play_audio] has a branch for this platform. *)
Definition supported_platform (w : World) : bool :=
  (os_name w =? "nt") || (os_name w =? "posix").

(** [speak] gets through in this calling thread: no loop runs in it, or
    the refusal of asyncio carries the text the bridge looks for. *)
Definition bridge_passes (w : World) : bool :=
  match running_loop w with
  | None => true
  | Some msg => str_contains "already running" msg
  end.

(** The same world, seen from a calling thread with another loop state. *)
Definition with_running_loop (w : World) (r : option string) : World :=
  {| translator_translate := translator_translate w;
     edge_tts_save := edge_tts_save w;
     has_set_rate := has_set_rate w;
     has_set_volume := has_set_volume w;
     os_name := os_name w;
     platform_system := platform_system w;
     os_system := os_system w;
     webbrowser_open := webbrowser_open w;
     running_loop := r;
     json_load_path := json_load_path w;
     OUTPUT_DIR := OUTPUT_DIR w;
     mkdtemp := mkdtemp w;
     os_path_join := os_path_join w;
     os_path_basename := os_path_basename w |}.

(** The [text] and [output_file] of a request at index [i], with the
    defaults of [request.get]. *)
Definition text_of (request : pyval) : pyval :=
  match py_get request "text" (PyStr "") with Returns v => v | Raises _ => PyNone end.

Definition output_file_of (i : nat) (request : pyval) : pyval :=
  match py_get request "output_file" (PyStr (default_output_file i)) with
  | Returns v => v
  | Raises _ => PyNone
  end.

(** A value [v[:30]] works on. *)
Definition sliceable (v : pyval) : bool :=
  match v with PyStr _ | PyList _ => true | _ => false end.

(** A request the loops get through: an object whose text is absent,
    empty (falsy) or can be sliced. The requests of the data model, whose
    text is a string, are of that kind. *)
Definition is_request (request : pyval) : bool :=
  match request with
  | PyDict _ => negb (truthy (text_of request)) || sliceable (text_of request)
  | _ => false
  end.

Definition has_text (request : pyval) : bool := truthy (text_of request).

(** A request POST /tts can place: its [output_file], when given, is a
    string as well. *)
Definition is_upload_request (request : pyval) : bool :=
  is_request request &&
  match output_file_of 0 request with PyStr _ => true | _ => false end.

(** The path POST /tts writes the file of the request at index [i] to. *)
Definition output_path_of (w : World) (i : nat) (request : pyval) : string :=
  match path_join w (OUTPUT_DIR w) (output_file_of i request) with
  | Returns p => p
  | Raises _ => ""
  end.

(** The requests of a batch that carry text, with their positions in the
    batch, those that carry none, and the files they name. *)
Definition with_text_from (start : nat) (l : list pyval) : list (nat * pyval) :=
  filter (fun ir => has_text (snd ir)) (enumerate_from start l).

Definition without_text_from (start : nat) (l : list pyval) : list (nat * pyval) :=
  filter (fun ir => negb (has_text (snd ir))) (enumerate_from start l).

Definition files_of (irs : list (nat * pyval)) : list pyval :=
  map (fun ir => output_file_of (fst ir) (snd ir)) irs.

Definition paths_of (w : World) (irs : list (nat * pyval)) : list string :=
  map (fun ir => output_path_of w (fst ir) (snd ir)) irs.

(** The requests POST /tts goes through. *)
Definition to_process (return_first_only : bool) (l : list pyval) : list pyval :=
  if return_first_only then firstn 1 l else l.

(** A batch [process_json_input] iterates to the end: an object whose
    [requests], when given, can be iterated and holds requests only. The
    batches of the data model, a list of requests under [requests], are
    of that kind. *)
Definition batch_requests (data : pyval) : option (list pyval) :=
  match data with
  | PyDict _ =>
      match py_get data "requests" (PyList []) with
      | Returns requests =>
          match py_iter requests with
          | Returns l => if forallb is_request l then Some l else None
          | Raises _ => None
          end
      | Raises _ => None
      end
  | _ => None
  end.

(** The top-level shape POST /tts accepts: an object with a non-empty list
    under [requests]. *)
Definition accepted_shape (data : pyval) : bool :=
  match data with
  | PyDict items =>
      match dict_lookup "requests" items with
      | Some (PyList (_ :: _)) => true
      | _ => false
      end
  | _ => false
  end.

(** A stretch of a run that writes no file, asks for no synthesis and
    prints neither a skip line nor a failure line. *)
Definition quiet (t : list event) : Prop :=
  saved_files t = [] /\ synthesis_attempts t = [] /\
  skip_lines t = [] /\ failure_lines t = [].

(* ------------------------------------------------------------------ *)
(** ** Sample worlds and inputs *)

Module Sample.

(** [os.path.basename] on a POSIX path. *)
Fixpoint basename (p : string) : string :=
  match p with
  | EmptyString => EmptyString
  | String c rest =>
      if str_contains "/" rest then basename rest
      else if (c =? "/")%char then rest else p
  end.

(** A host, by what its collaborators answer on every call; [files] is
    what [json.load] gives for each path. No event loop runs in the
    calling thread. *)
Definition host (os : string) (shell : result Z) (browser : result bool)
    (translation : result string) (synthesis : result unit)
    (files : list (string * result pyval)) : World :=
  {| translator_translate := fun _ _ => translation;
     edge_tts_save := fun _ _ _ _ _ => synthesis;
     has_set_rate := true;
     has_set_volume := true;
     os_name := os;
     platform_system := "Linux";
     os_system := fun _ => shell;
     webbrowser_open := fun _ => browser;
     running_loop := None;
     json_load_path := fun path =>
       match find (fun kv => fst kv =? path) files with
       | Some kv => snd kv
       | None => Raises (mkExn OSError "No such file or directory")
       end;
     OUTPUT_DIR := "/srv/tts_output";
     mkdtemp := "/tmp/tmpq1";
     os_path_join := fun dir name => (dir ++ "/" ++ name)%string;
     os_path_basename := basename |}.

(** A Linux host where every collaborator answers. *)
Definition linux (files : list (string * result pyval)) : World :=
  host "posix" (Returns 0%Z) (Returns true) (Returns "namaste") (Returns tt) files.

(** A platform [play_audio] has no branch for. *)
Definition jython : World :=
  host "java" (Returns 0%Z) (Returns true) (Returns "namaste") (Returns tt) [].

(** A host whose shell and translation service both throw. *)
Definition failing : World :=
  host "posix" (Raises (mkExn ValueError "embedded null byte")) (Returns true)
    (Raises (mkExn Exception "service unavailable")) (Returns tt) [].

(** A host whose shell and generic handler both throw. *)
Definition mute : World :=
  host "posix" (Raises (mkExn ValueError "embedded null byte"))
    (Raises (mkExn Exception "could not locate runnable browser"))
    (Returns "namaste") (Returns tt) [].

(** A host whose synthesis service rejects every request. *)
Definition rejecting (files : list (string * result pyval)) : World :=
  host "posix" (Returns 0%Z) (Returns true) (Returns "namaste")
    (Raises (mkExn Exception "No audio was received")) files.

Definition request (fields : list (string * pyval)) : pyval := PyDict fields.

Definition batch (requests : list pyval) : pyval :=
  PyDict [("requests", PyList requests)].

(** A batch whose first request has no text. *)
Definition silent_then_hello : list pyval :=
  [request [("text", PyStr "")]; request [("text", PyStr "hello")]].

(** A batch whose requests all have text, the first naming its file. *)
Definition greeting_then_hello : list pyval :=
  [request [("text", PyStr "good morning"); ("output_file", PyStr "greeting.mp3")];
   request [("text", PyStr "hello")]].

(** A file system with one batch file, batch.json, and the Linux host
    with it. *)
Definition batch_files (requests : list pyval) : list (string * result pyval) :=
  [("batch.json", Returns (batch requests))].

Definition with_batch_file (requests : list pyval) : World :=
  linux (batch_files requests).

Definition upload (data : pyval) : UploadFile :=
  {| upload_text := Returns "(the uploaded text)"; upload_json := Returns data |}.

End Sample.


(* ------------------------------------------------------------------ *)
(** ** The rest of main.py and tts_api.py *)

(** The collaborators of the functions below that [World] does not hold. *)
Record Host : Type := {
  (** main.py 188-190: the import of edge_tts and [await edge_tts.list_voices()]. *)
  edge_tts_list_voices : result pyval;
  (** [os.path.exists(path)] and [os.path.getsize(path)]. *)
  os_path_exists : string -> bool;
  os_path_getsize : string -> result Z
}.

Module MainRest.
Section WithWorld.

Variable w : World.
Variable h : Host.

(** One turn of the loop of [list_voices] (lines 194-207): the entry made
    of a voice, after its line is printed. *)
Definition voice_entry (voice : pyval) : M pyval :=
  name <- call (py_get voice "Name" (PyStr "Unknown")) ;;
  friendly_name <- call (py_get voice "FriendlyName" name) ;;
  gender <- call (py_get voice "Gender" (PyStr "Unknown")) ;;
  short_name <- call (py_getitem voice "ShortName") ;;
  emit (Print [Lit "- "; Val short_name; Lit ": "; Val friendly_name;
               Lit " ("; Val gender; Lit ")"]) ;;
  short_name <- call (py_getitem voice "ShortName") ;;
  locale <- call (py_get voice "Locale" (PyStr "")) ;;
  ret (PyDict [("short_name", short_name); ("friendly_name", friendly_name);
               ("gender", gender); ("locale", locale)]).

(** [list_voices]. *)
Definition list_voices : M pyval :=
  try_except
    (voices <- call (edge_tts_list_voices h) ;;
     emit (Print [Lit "Available voices:"]) ;;
     items <- call (py_iter voices) ;;
     result <- for_fold items []
                 (fun result voice =>
                    entry <- voice_entry voice ;;
                    ret (result ++ [entry])) ;;
     ret (PyList result))
    any_Exception
    (fun e =>
       emit (Print [Lit "Error listing voices: "; Lit (exn_str e)]) ;;
       emit PrintTraceback ;;
       ret (PyList [])).

(** [get_voices]. *)
Definition get_voices : M pyval := list_voices.


End WithWorld.
End MainRest.

Module TtsApiRest.
Section WithWorld.

Variable w : World.
Variable h : Host.

(** [root], the handler of GET /. *)
Definition root : response :=
  JSONBody (PyDict [("message", PyStr "Simple Edge TTS API is running");
                    ("instruction",
                     PyStr "POST a JSON file to /tts to get text-to-speech output")]).

(** What [raise HTTPException(status_code=..., detail=...)] carries. *)
Record HTTPException : Type := mkHTTPException { status_code : nat; detail : string }.

(** [get_file], the handler of GET /get-file/{filename}: [inl] is the
    exception raised, [inr] the response returned. *)
Definition get_file (filename : string) : HTTPException + response :=
  let file_path := os_path_join w (OUTPUT_DIR w) filename in
  if negb (os_path_exists h file_path) then
    inl (mkHTTPException 404 ("File " ++ filename ++ " not found"))
  else inr (FileResponse file_path "audio/mpeg" filename).

(** [test_tts], the handler of GET /test. *)
Definition test_tts : M response :=
  try_except
    (let test_file := os_path_join w (OUTPUT_DIR w) "test_output.mp3" in
     success <- generate_speech w (PyStr "This is a test of the Edge TTS API.")
                  (PyStr "en-US-GuyNeural") (PyStr "+0%") (PyStr "+0%")
                  (PyStr test_file) (PyBool false) ;;
     if success && os_path_exists h test_file then
       file_size <- call (os_path_getsize h test_file) ;;
       ret (JSONBody (PyDict [("status", PyStr "success");
                              ("message", PyStr "TTS test successful");
                              ("file_size", PyInt file_size);
                              ("download_url", PyStr "/get-file/test_output.mp3")]))
     else
       ret (JSONBody (PyDict [("status", PyStr "error");
                              ("message", PyStr "TTS test failed")])))
    any_Exception
    (fun e =>
       emit PrintTraceback ;;
       ret (JSONBody (PyDict [("status", PyStr "error");
                              ("message", PyStr ("TTS test error: " ++ exn_str e))]))).

(** [healthcheck], the handler of GET /healthcheck. *)
Definition healthcheck : response :=
  JSONBody (PyDict [("status", PyStr "healthy")]).

End WithWorld.
End TtsApiRest.

Import MainRest TtsApiRest.

(* ------------------------------------------------------------------ *)
(** ** More terms for statements *)

(** What the synthesis service is asked: the text, the voice, the rate
    and volume when the library takes them, and the file to write. *)
Record spoken : Type := mkSpoken {
  spoken_text : pyval;
  spoken_voice : pyval;
  spoken_rate : option pyval;
  spoken_volume : option pyval;
  spoken_file : pyval
}.

Fixpoint synthesis_requests (t : list event) : list spoken :=
  match t with
  | [] => []
  | Synthesize text voice rate volume f :: rest =>
      mkSpoken text voice rate volume f :: synthesis_requests rest
  | _ :: rest => synthesis_requests rest
  end.

(** The calls made to the translation service. *)
Fixpoint translations (t : list event) : list (pyval * string) :=
  match t with
  | [] => []
  | Translate text dest :: rest => (text, dest) :: translations rest
  | _ :: rest => translations rest
  end.

(** The shell commands run. *)
Fixpoint commands (t : list event) : list fstring :=
  match t with
  | [] => []
  | System cmd :: rest => cmd :: commands rest
  | _ :: rest => commands rest
  end.

(** How many events of a kind a run holds. *)
Definition count (kind : event -> bool) (t : list event) : nat :=
  List.length (filter kind t).

Definition is_NewEventLoop (ev : event) : bool :=
  match ev with NewEventLoop => true | _ => false end.

Definition is_LoopClose (ev : event) : bool :=
  match ev with LoopClose => true | _ => false end.

Definition is_ThreadStart (ev : event) : bool :=
  match ev with ThreadStart => true | _ => false end.

Definition is_ThreadJoin (ev : event) : bool :=
  match ev with ThreadJoin => true | _ => false end.

Definition is_Sleep (ev : event) : bool :=
  match ev with Sleep _ => true | _ => false end.

Definition is_WebbrowserOpen (ev : event) : bool :=
  match ev with WebbrowserOpen _ => true | _ => false end.

Definition is_Rmtree (ev : event) : bool :=
  match ev with Rmtree _ => true | _ => false end.

(** The events the pipeline [speak_async] can emit. *)
Definition is_pipeline_event (ev : event) : bool :=
  match ev with
  | Print _ | Translate _ _ | Synthesize _ _ _ _ _ | AudioSaved _
  | System _ | WebbrowserOpen _ => true
  | _ => false
  end.

(** The text [speak_async] hands to synthesis: the translation when one
    is asked for and the service gives it, the text itself otherwise. *)
Definition synthesized_text (w : World) (text translate_to_hindi : pyval) : pyval :=
  if truthy translate_to_hindi then
    match translator_translate w text "hi" with
    | Returns translated => PyStr translated
    | Raises _ => text
    end
  else text.

(** The rate and volume that reach the library, from the engine. *)
Definition rate_sent (w : World) (s : EdgeTTS) : option pyval :=
  if has_set_rate w then Some (rate s) else None.

Definition volume_sent (w : World) (s : EdgeTTS) : option pyval :=
  if has_set_volume w then Some (volume s) else None.

(** Whether the synthesis of a request comes back. *)
Definition synthesis_ok (w : World) (r : spoken) : bool :=
  match edge_tts_save w (spoken_text r) (spoken_voice r) (spoken_rate r)
          (spoken_volume r) (spoken_file r) with
  | Returns _ => true
  | Raises _ => false
  end.

(** What [speak_async] asks for, on an engine. *)
Definition pipeline_request (w : World) (text output_file translate_to_hindi : pyval)
    (s : EdgeTTS) : spoken :=
  mkSpoken (synthesized_text w text translate_to_hindi) (voice s)
    (rate_sent w s) (volume_sent w s) output_file.

(** A field of a request, with the default of [request.get]. *)
Definition field_of (request : pyval) (key : string) (default : pyval) : pyval :=
  match py_get request key default with Returns v => v | Raises _ => PyNone end.

(** The engine as both loops set it before they speak a request. *)
Definition request_engine (request : pyval) : EdgeTTS :=
  mkEdgeTTS (field_of request "voice" (PyStr "hi-IN-MadhurNeural"))
            (field_of request "rate" (PyStr "+0%"))
            (field_of request "volume" (PyStr "+0%")).


Definition upload_spoken (w : World) (ir : nat * pyval) : spoken :=
  pipeline_request w (text_of (snd ir)) (PyStr (output_path_of w (fst ir) (snd ir)))
    (field_of (snd ir) "translate_to_hindi" (PyBool false)) (request_engine (snd ir)).

(** The list POST /tts iterates, when the upload has the accepted shape. *)
Definition upload_batch (data : pyval) : option (list pyval) :=
  match data with
  | PyDict items =>
      match dict_lookup "requests" items with
      | Some (PyList (x :: l)) => Some (x :: l)
      | _ => None
      end
  | _ => None
  end.

(** The requests of an upload that end with a file: they have text and
    their synthesis comes back. *)
Definition spoken_ok (w : World) (ir : nat * pyval) : bool :=
  has_text (snd ir) && synthesis_ok w (upload_spoken w ir).

(** The files POST /tts generates for an upload. *)
Definition upload_files (w : World) (return_first_only : bool) (l : list pyval)
    : list string :=
  paths_of w (filter (spoken_ok w) (enumerate (to_process return_first_only l))).

(** The events a request handler can emit between making and removing
    its temporary directory. *)
Definition is_handler_event (ev : event) : bool :=
  match ev with
  | PrintTraceback | WriteUpload _ => true
  | _ => is_pipeline_event ev
  end.

(** A batch of three requests: one with its own voice and rate, one with
    no text, one to translate. *)
Definition three_requests : list pyval :=
  [Sample.request [("text", PyStr "good morning"); ("voice", PyStr "en-US-GuyNeural");
                   ("rate", PyStr "+10%")];
   Sample.request [("text", PyStr "")];
   Sample.request [("text", PyStr "hello"); ("translate_to_hindi", PyBool true)]].

(** A batch whose second request has a number for its text. *)
Definition number_in_the_middle : list pyval :=
  [Sample.request [("text", PyStr "hello")];
   Sample.request [("text", PyInt 5)];
   Sample.request [("text", PyStr "again")]].

(** A voice [list_voices] can list: an object with a [ShortName]. *)
Definition is_voice (voice : pyval) : bool :=
  match voice with
  | PyDict items =>
      match dict_lookup "ShortName" items with Some _ => true | None => false end
  | _ => false
  end.

(** The name [list_voices] shows for a voice: its [FriendlyName], else
    its [Name], else Unknown. *)
Definition friendly_name_of (voice : pyval) : pyval :=
  field_of voice "FriendlyName" (field_of voice "Name" (PyStr "Unknown")).

(** The entry and the line of a voice. *)
Definition voice_info (voice : pyval) : pyval :=
  PyDict [("short_name", field_of voice "ShortName" PyNone);
          ("friendly_name", friendly_name_of voice);
          ("gender", field_of voice "Gender" (PyStr "Unknown"));
          ("locale", field_of voice "Locale" (PyStr ""))].

Definition voice_line (voice : pyval) : event :=
  Print [Lit "- "; Val (field_of voice "ShortName" PyNone); Lit ": ";
         Val (friendly_name_of voice); Lit " (";
         Val (field_of voice "Gender" (PyStr "Unknown")); Lit ")"].

(** A host whose voice service gives [voices], with no file on disk. *)
Definition voice_host (voices : result pyval) : Host :=
  {| edge_tts_list_voices := voices;
     os_path_exists := fun _ => false;
     os_path_getsize := fun _ => Raises (mkExn OSError "No such file or directory") |}.

(** Two voices, as the current and as an older version of the library
    describe them, and an entry without a short name. *)
Definition madhur : pyval :=
  PyDict [("Name", PyStr "Microsoft Server Speech Text to Speech Voice (hi-IN, MadhurNeural)");
          ("ShortName", PyStr "hi-IN-MadhurNeural");
          ("Gender", PyStr "Male");
          ("Locale", PyStr "hi-IN");
          ("FriendlyName", PyStr "Microsoft Madhur Online (Natural) - Hindi (India)")].

Definition guy : pyval :=
  PyDict [("Name", PyStr "Microsoft Server Speech Text to Speech Voice (en-US, GuyNeural)");
          ("ShortName", PyStr "en-US-GuyNeural")].

Definition nameless : pyval :=
  PyDict [("Name", PyStr "Microsoft Server Speech Text to Speech Voice (en-GB, RyanNeural)");
          ("Gender", PyStr "Male")].

(** What GET /test asks of the synthesis service. *)
Definition test_request (w : World) : spoken :=
  mkSpoken (PyStr "This is a test of the Edge TTS API.") (PyStr "en-US-GuyNeural")
    (if has_set_rate w then Some (PyStr "+0%") else None)
    (if has_set_volume w then Some (PyStr "+0%") else None)
    (PyStr (os_path_join w (OUTPUT_DIR w) "test_output.mp3")).
(* ------------------------------------------------------------------ *)
(** ** Running the monad by hand *)

Ltac unfold_monad :=
  unfold value, events, engine, try_except, try_finally, bind, emit, call, ret, raise,
    get_self, put_self, any_Exception in *.

Lemma bind_call_returns {A B : Type} (a : A) (f : A -> M B) (s : EdgeTTS) :
  bind (call (Returns a)) f s = f a s.
Proof. unfold bind, call. destruct (f a s) as [[r s'] t]. reflexivity. Qed.

Lemma bind_runs {A B : Type} (m : M A) (f : A -> M B) (s s1 : EdgeTTS) (a : A)
    (t1 : list event) :
  m s = (Returns a, s1, t1) ->
  bind m f s = (value (f a s1), engine (f a s1), t1 ++ events (f a s1)).
Proof.
  intros E. unfold bind, value, engine, events. rewrite E.
  destruct (f a s1) as [[r s2] t2]. reflexivity.
Qed.

Lemma saved_files_app (t1 t2 : list event) :
  saved_files (t1 ++ t2) = saved_files t1 ++ saved_files t2.
Proof.
  induction t1 as [|ev t1 IH]; simpl; [reflexivity|].
  destruct ev; simpl; rewrite ?IH; reflexivity.
Qed.

Lemma synthesis_attempts_app (t1 t2 : list event) :
  synthesis_attempts (t1 ++ t2) = synthesis_attempts t1 ++ synthesis_attempts t2.
Proof.
  induction t1 as [|ev t1 IH]; simpl; [reflexivity|].
  destruct ev; simpl; rewrite ?IH; reflexivity.
Qed.

Lemma played_app (t1 t2 : list event) :
  played (t1 ++ t2) = played t1 ++ played t2.
Proof.
  induction t1 as [|ev t1 IH]; simpl; [reflexivity|].
  destruct ev as [| | | | |cmd| | | | | | | | | |]; simpl; rewrite ?IH; try reflexivity.
  destruct cmd as [|[?|?|] [|[?|?|] [|[?|?|] [|? ?]]]]; simpl; rewrite ?IH; reflexivity.
Qed.

Lemma skip_lines_app (t1 t2 : list event) :
  skip_lines (t1 ++ t2) = skip_lines t1 ++ skip_lines t2.
Proof. apply filter_app. Qed.

Lemma failure_lines_app (t1 t2 : list event) :
  failure_lines (t1 ++ t2) = failure_lines t1 ++ failure_lines t2.
Proof. apply filter_app. Qed.

(** The projections of a run split along concatenation. *)
Create Rewrite HintDb trace.
#[local] Hint Rewrite app_nil_r saved_files_app synthesis_attempts_app played_app
  skip_lines_app failure_lines_app : trace.

Ltac trace_simpl :=
  repeat first [ progress autorewrite with trace | progress simpl ].

Lemma quiet_nil : quiet [].
Proof. repeat split. Qed.

Lemma quiet_app (t1 t2 : list event) : quiet t1 -> quiet t2 -> quiet (t1 ++ t2).
Proof.
  unfold quiet. intros (A1 & B1 & C1 & D1) (A2 & B2 & C2 & D2).
  trace_simpl. rewrite A1, A2, B1, B2, C1, C2, D1, D2. repeat split.
Qed.

(* ------------------------------------------------------------------ *)
(** ** Translation Adapter *)

(** C5. For every text and target locale, [translate_text] returns a
    string and does not raise; when the translation service raises, it
    prints the error and returns the text it was given. *)
Theorem translate_text_fails_open (w : World) (text target : string) (s : EdgeTTS) :
  (exists out : string,
     value (translate_text w (PyStr text) target s) = Returns (PyStr out)) /\
  (forall e : exn,
     translator_translate w (PyStr text) target = Raises e ->
     value (translate_text w (PyStr text) target s) = Returns (PyStr text) /\
     In (Print [Lit "Translation error: "; Lit (exn_str e)])
        (events (translate_text w (PyStr text) target s))) /\
  (forall out : string,
     translator_translate w (PyStr text) target = Returns out ->
     value (translate_text w (PyStr text) target s) = Returns (PyStr out)).
Proof.
  unfold translate_text. unfold_monad. simpl.
  destruct (translator_translate w (PyStr text) target) as [out|e] eqn:E; simpl.
  - split; [exists out; reflexivity|]. split.
    + intros e H. discriminate H.
    + intros out' H. injection H as <-. reflexivity.
  - split; [exists text; reflexivity|]. split.
    + intros e' H. injection H as <-. split; [reflexivity|]. simpl. auto.
    + intros out H. discriminate H.
Qed.

(** The stub raising: the text comes back as it went in. *)
Example translate_text_service_down :
  value (translate_text (Sample.failing) (PyStr "hello") "hi" EdgeTTS_init)
  = Returns (PyStr "hello").
Proof. reflexivity. Qed.

(* ------------------------------------------------------------------ *)
(** ** Audio Player *)

(** C9, as the spec states it, fails on a platform [play_audio] has no
    branch for: with [os.name] neither nt nor posix the function prints and
    returns false at once; the generic handler is not called, though here
    it would have answered. *)
Lemma play_audio_unsupported_platform_no_fallback :
  play_audio (Sample.jython) (PyStr "output.mp3") EdgeTTS_init
  = (Returns false, EdgeTTS_init, [Print [Lit "Unsupported platform for audio playback"]])
  /\ webbrowser_open (Sample.jython) (PyStr "output.mp3")
     = Returns true.
Proof. split; reflexivity. Qed.

(** On a Linux host whose shell throws, the generic handler is called and
    the answer is true; when the handler throws too, the answer is false. *)
Example play_audio_falls_back :
  play_audio Sample.failing (PyStr "output.mp3") EdgeTTS_init
  = (Returns true, EdgeTTS_init,
     [System (play_command "aplay" (PyStr "output.mp3"));
      Print [Lit "Error playing audio: "; Lit "embedded null byte"];
      WebbrowserOpen (PyStr "output.mp3")]) /\
  play_audio Sample.mute (PyStr "output.mp3") EdgeTTS_init
  = (Returns false, EdgeTTS_init,
     [System (play_command "aplay" (PyStr "output.mp3"));
      Print [Lit "Error playing audio: "; Lit "embedded null byte"];
      WebbrowserOpen (PyStr "output.mp3");
      Print [Lit "All audio playback methods failed"]]).
Proof. split; reflexivity. Qed.

(** C9, amended. [play_audio] never raises. When the shell command of the
    platform raises, the generic handler is called on the same path, and
    the result is false exactly when the handler raises too. On a platform
    without a branch it returns false without calling the handler. It
    returns false in those two cases only. *)
Theorem play_audio_never_raises (w : World) (file_path : pyval) (s : EdgeTTS) :
  (exists b : bool, value (play_audio w file_path s) = Returns b) /\
  (supported_platform w = false ->
     play_audio w file_path s
     = (Returns false, s, [Print [Lit "Unsupported platform for audio playback"]])) /\
  (forall (cmd : fstring) (e : exn),
     In (System cmd) (events (play_audio w file_path s)) ->
     os_system w cmd = Raises e ->
     In (WebbrowserOpen file_path) (events (play_audio w file_path s)) /\
     (value (play_audio w file_path s) = Returns false <->
      exists e' : exn, webbrowser_open w file_path = Raises e')) /\
  (value (play_audio w file_path s) = Returns false ->
     supported_platform w = false \/
     exists (cmd : fstring) (e e' : exn),
       In (System cmd) (events (play_audio w file_path s)) /\
       os_system w cmd = Raises e /\ webbrowser_open w file_path = Raises e').
Proof.
  unfold play_audio, supported_platform, system. unfold_monad.
  destruct (os_name w =? "nt") eqn:Ent; simpl;
    [|destruct (os_name w =? "posix") eqn:Eposix; simpl;
      [destruct (platform_system w =? "Darwin") eqn:Edarwin; simpl|]].
  all: try match goal with
       | |- context [os_system ?w0 ?c] =>
           destruct (os_system w0 c) as [z|e0] eqn:Esys; simpl
       end.
  all: try match goal with
       | |- context [webbrowser_open ?w0 ?p] =>
           destruct (webbrowser_open w0 p) as [ok|e1] eqn:Eweb; simpl
       end.
  all: repeat split; intros.
  all: repeat match goal with
       | H : _ \/ _ |- _ => destruct H
       | H : False |- _ => destruct H
       | H : exists _, _ |- _ => destruct H
       | H : System _ = System _ |- _ => injection H as <-
       | H : _ = _ |- _ => discriminate H
       end.
  all: try congruence.
  all: try solve [simpl; eauto 10].
  all: try (right; do 3 eexists; split; [left; reflexivity|split; eassumption]).
Qed.

(* ------------------------------------------------------------------ *)
(** ** Speech Adapter and pipeline *)

(** The handler of an [except Exception] that itself returns makes the
    whole statement return. *)
Lemma try_except_any_returns {A : Type} (body : M A) (handler : exn -> M A) (s : EdgeTTS) :
  (forall e s1, exists a s2 t, handler e s1 = (Returns a, s2, t)) ->
  exists a s' t, try_except body any_Exception handler s = (Returns a, s', t).
Proof.
  intros Hh. unfold try_except, any_Exception.
  destruct (body s) as [[[a|e] s1] t1].
  - eauto.
  - destruct (Hh e s1) as (a & s2 & t2 & ->). eauto.
Qed.

(** [_generate_speech] never raises and leaves the engine as it is; it
    writes the file when the service answers, and prints the error
    otherwise. *)
Lemma generate_speech_run (w : World) (text output_file : pyval) (s : EdgeTTS) :
  let r := if has_set_rate w then Some (rate s) else None in
  let v := if has_set_volume w then Some (volume s) else None in
  _generate_speech w text output_file s =
  match edge_tts_save w text (voice s) r v output_file with
  | Returns _ =>
      (Returns true, s,
       [Synthesize text (voice s) r v output_file; AudioSaved output_file])
  | Raises e =>
      (Returns false, s,
       [Synthesize text (voice s) r v output_file;
        Print [Lit "Error generating speech: "; Lit (exn_str e)]])
  end.
Proof.
  unfold _generate_speech. unfold_monad. simpl.
  destruct (edge_tts_save w text (voice s) _ _ output_file); reflexivity.
Qed.

(** [translate_text] returns, leaves the engine as it is, and touches
    neither files nor the player. *)
Lemma translate_text_run (w : World) (text : pyval) (target : string) (s : EdgeTTS) :
  exists v t,
    translate_text w text target s = (Returns v, s, t) /\ quiet t /\ played t = [].
Proof.
  unfold translate_text, quiet. unfold_monad. simpl.
  destruct (translator_translate w text target); simpl; eauto 10.
Qed.

(** [play_audio] returns, leaves the engine as it is, and writes no file;
    on a platform it has a branch for, it asks for the file to be played. *)
Lemma play_audio_run (w : World) (file_path : pyval) (s : EdgeTTS) :
  exists b t,
    play_audio w file_path s = (Returns b, s, t) /\ quiet t /\
    incl (played t) [file_path] /\
    (supported_platform w = true -> In file_path (played t)).
Proof.
  unfold play_audio, supported_platform, system, play_command, quiet. unfold_monad.
  destruct (os_name w =? "nt") eqn:Ent; simpl;
    [|destruct (os_name w =? "posix") eqn:Eposix; simpl;
      [destruct (platform_system w =? "Darwin") eqn:Edarwin; simpl|]].
  all: try match goal with
       | |- context [os_system ?w0 ?c] =>
           destruct (os_system w0 c) as [z|e0] eqn:Esys; simpl
       end.
  all: try match goal with
       | |- context [webbrowser_open ?w0 ?p] =>
           destruct (webbrowser_open w0 p) as [ok|e1] eqn:Eweb; simpl
       end.
  all: do 2 eexists; split; [reflexivity|]; simpl; repeat split; auto.
  all: try discriminate.
  all: repeat (apply incl_cons; [left; reflexivity|]); apply incl_nil_l.
Qed.

(** The pipeline never raises and leaves the engine as it is. It asks the
    synthesis service once. The file is written exactly when it answers
    true, and then [play_audio] runs on that same file; when it answers
    false, one failure line is printed. Nothing is played but a file just
    written, and on a platform with a branch every file written is played. *)
Lemma speak_async_run (w : World) (text output_file translate_to_hindi : pyval) (s : EdgeTTS) :
  exists b t,
    speak_async w text output_file translate_to_hindi s = (Returns b, s, t) /\
    saved_files t = (if b then [output_file] else []) /\
    synthesis_attempts t = [output_file] /\
    skip_lines t = [] /\
    List.length (failure_lines t) = (if b then 0 else 1) /\
    incl (played t) (saved_files t) /\
    (supported_platform w = true -> incl (saved_files t) (played t)) /\
    (b = true ->
       exists pre, t = pre ++ Print [Lit "Playing audio..."]
                            :: events (play_audio w output_file s)) /\
    (synthesis_always_succeeds w -> b = true) /\
    (synthesis_always_fails w -> b = false).
Proof.
  unfold speak_async. unfold try_except at 1. unfold bind at 1.
  assert (Hpre : exists text' t0,
             (if truthy translate_to_hindi
              then t <- translate_text w text "hi" ;;
                   emit (Print [Lit "Translated text: "; Val t]) ;; ret t
              else ret text) s = (Returns text', s, t0) /\
             quiet t0 /\ played t0 = []).
  { destruct (truthy translate_to_hindi).
    - destruct (translate_text_run w text "hi" s) as (v & t & E & Q & P).
      unfold_monad. rewrite E. simpl. do 2 eexists. split; [reflexivity|].
      split.
      + apply quiet_app; [exact Q|repeat split].
      + rewrite played_app, P. reflexivity.
    - unfold_monad. do 2 eexists. split; [reflexivity|]. split; [apply quiet_nil|reflexivity]. }
  destruct Hpre as (text' & t0 & -> & (S0 & A0 & K0 & F0) & P0).
  unfold bind at 1. rewrite generate_speech_run. simpl.
  destruct (edge_tts_save w text' (voice s) _ _ output_file) as [[]|e] eqn:Esave; simpl.
  - destruct (play_audio_run w output_file s)
      as (b & t & E & (S1 & A1 & K1 & F1) & P1 & P2).
    unfold_monad. rewrite E. simpl. do 2 eexists. split; [reflexivity|].
    trace_simpl. rewrite S0, A0, K0, F0, P0, S1, A1, K1, F1. simpl.
    repeat split; try reflexivity; try discriminate.
    + exact P1.
    + intros Hsup. apply incl_cons; [exact (P2 Hsup)|apply incl_nil_l].
    + eexists (t0 ++ [_; _; _]). rewrite <- app_assoc. reflexivity.
    + intros Hfail. destruct (Hfail text' (voice s)
        (if has_set_rate w then Some (rate s) else None)
        (if has_set_volume w then Some (volume s) else None) output_file) as (e & He).
      congruence.
  - unfold_monad. simpl. do 2 eexists. split; [reflexivity|].
    trace_simpl. rewrite S0, A0, K0, F0, P0. simpl.
    repeat split; try reflexivity; try discriminate; try apply incl_refl.
    + intros _. apply incl_refl.
    + intros Hok. rewrite Hok in Esave. discriminate Esave.
Qed.

(* ------------------------------------------------------------------ *)
(** ** Synchronous Bridge *)


(** First path: no loop runs in the calling thread. *)
Lemma speak_plain_call (w : World) (text output_file translate_to_hindi : pyval) (s : EdgeTTS) :
  running_loop w = None ->
  speak w text output_file translate_to_hindi s =
  (value (speak_async w text output_file translate_to_hindi s), s,
   [NewEventLoop] ++ events (speak_async w text output_file translate_to_hindi s)
   ++ [LoopClose]).
Proof.
  intros Hloop. unfold speak, run_until_complete. rewrite Hloop.
  destruct (speak_async_run w text output_file translate_to_hindi s) as (b & t & E & _).
  unfold_monad. simpl. rewrite E. reflexivity.
Qed.

(** Second path: asyncio refuses with the text the bridge looks for; the
    pipeline runs in the worker thread and its answer is read from the
    cell after the join. *)
Lemma speak_inside_running_loop (w : World) (text output_file translate_to_hindi : pyval)
    (msg : string) (s : EdgeTTS) :
  running_loop w = Some msg ->
  str_contains "already running" msg = true ->
  speak w text output_file translate_to_hindi s =
  (value (speak_async w text output_file translate_to_hindi s), s,
   [NewEventLoop; LoopClose;
    Print [Lit "Note: Running in existing event loop, some features may be limited"];
    ThreadStart; NewEventLoop; SetEventLoop]
   ++ events (speak_async w text output_file translate_to_hindi s)
   ++ [LoopClose; ThreadJoin]).
Proof.
  intros Hloop Hmsg. unfold speak, run_until_complete, thread_start_join. rewrite Hloop.
  destruct (speak_async_run w text output_file translate_to_hindi s) as (b & t & E & _).
  unfold_monad. simpl. rewrite Hmsg. simpl. rewrite E. simpl.
  rewrite <- !app_assoc. reflexivity.
Qed.

(** Any other refusal of asyncio is raised again, unchanged. *)
Lemma speak_other_runtime_error (w : World) (text output_file translate_to_hindi : pyval)
    (msg : string) (s : EdgeTTS) :
  running_loop w = Some msg ->
  str_contains "already running" msg = false ->
  speak w text output_file translate_to_hindi s =
  (Raises (mkExn RuntimeError msg), s, [NewEventLoop; LoopClose]).
Proof.
  intros Hloop Hmsg. unfold speak, run_until_complete. rewrite Hloop.
  unfold_monad. simpl. rewrite Hmsg. reflexivity.
Qed.

(** Where the bridge gets through, [speak] answers what the pipeline
    answers, and around the pipeline it only handles loops and threads. *)
Lemma speak_run (w : World) (text output_file translate_to_hindi : pyval) (s : EdgeTTS) :
  bridge_passes w = true ->
  exists pre post,
    speak w text output_file translate_to_hindi s =
    (value (speak_async w text output_file translate_to_hindi s), s,
     pre ++ events (speak_async w text output_file translate_to_hindi s) ++ post) /\
    quiet pre /\ quiet post /\ played pre = [] /\ played post = [].
Proof.
  unfold bridge_passes. intros Hb.
  destruct (running_loop w) as [msg|] eqn:Hloop.
  - rewrite (speak_inside_running_loop w _ _ _ msg s Hloop Hb).
    do 2 eexists. split; [reflexivity|]. repeat split; reflexivity.
  - rewrite (speak_plain_call w _ _ _ s Hloop).
    do 2 eexists. split; [reflexivity|]. repeat split; reflexivity.
Qed.



(* ------------------------------------------------------------------ *)
(** ** Batch Processor *)

Lemma sliceable_slice (v : pyval) (n : nat) :
  sliceable v = true -> exists head, py_slice_to n v = Returns head.
Proof. destruct v; try discriminate; simpl; eauto. Qed.

Lemma batch_requests_get (data : pyval) (l : list pyval) :
  batch_requests data = Some l ->
  exists requests,
    py_get data "requests" (PyList []) = Returns requests /\
    py_iter requests = Returns l /\ forallb is_request l = true.
Proof.
  unfold batch_requests. destruct data as [| | | | | |items]; try discriminate.
  destruct (py_get (PyDict items) "requests" (PyList [])) as [requests|]; [|discriminate].
  destruct (py_iter requests) as [l'|] eqn:Hiter; [|discriminate].
  destruct (forallb is_request l') eqn:Hall; [|discriminate].
  intros [= <-]. exists requests. auto.
Qed.

(** The lemmas of this section are about one world in which the bridge
    gets through. *)
Section BatchLoop.

Variable w : World.
Hypothesis Hbridge : bridge_passes w = true.

(** One turn of the loop of [process_json_input]. *)
Lemma json_request_run (i : nat) (request : pyval) (s : EdgeTTS) :
  is_request request = true ->
  exists s' t,
    process_json_request w (i, request) s = (Returns tt, s', t) /\
    synthesis_attempts t = (if has_text request then [output_file_of i request] else []) /\
    skip_lines t = (if has_text request then [] else [skip_line i]) /\
    (saved_files t = [] \/ saved_files t = synthesis_attempts t) /\
    (synthesis_always_succeeds w -> saved_files t = synthesis_attempts t) /\
    (synthesis_always_fails w ->
       saved_files t = [] /\
       List.length (failure_lines t) = List.length (synthesis_attempts t)).
Proof.
  intros Hreq.
  destruct request as [| | | | |?|items]; try discriminate Hreq.
  unfold is_request, has_text, output_file_of, text_of in *. simpl in *.
  unfold process_json_request. simpl.
  unfold set_voice, set_rate, set_volume. unfold_monad. simpl.
  destruct (truthy match dict_lookup "text" items with
                   | Some x => x | None => PyStr "" end) eqn:Etruthy; simpl in *.
  - destruct (sliceable_slice _ 30 Hreq) as (head & ->). simpl.
    match goal with
    | |- context [speak w ?a ?b ?c ?s1] =>
        destruct (speak_run w a b c s1 Hbridge) as (pre & post & Es & Qpre & Qpost & _);
        destruct (speak_async_run w a b c s1)
          as (b0 & t & Ea & Hsaved & Hatt & Hskip & Hfail & _ & _ & _ & Hok & Hko);
        rewrite Ea in Es; unfold value, events in Es; simpl in Es; rewrite Es
    end.
    simpl. do 2 eexists. split; [reflexivity|].
    destruct Qpre as (S1 & A1 & K1 & F1). destruct Qpost as (S2 & A2 & K2 & F2).
    change (skip_lines (?a :: ?l)) with (skip_lines l).
    trace_simpl.
    rewrite S1, A1, K1, F1, S2, A2, K2, F2, Hsaved, Hatt, Hskip. simpl.
    rewrite !app_nil_r.
    repeat split.
    + destruct b0; auto.
    + intros H. rewrite (Hok H). reflexivity.
    + rewrite (Hko H). reflexivity.
    + rewrite (Hko H) in Hfail. exact Hfail.
  - do 2 eexists. split; [reflexivity|].
    simpl. repeat split; auto.
Qed.

(** The loop over a list of requests runs to its end. It asks for
    synthesis once per request with text, in batch order, each under the
    file name of its own position; it prints one skip line per request
    without text. *)
Lemma json_loop_run (l : list pyval) :
  forallb is_request l = true ->
  forall (start : nat) (s : EdgeTTS),
  exists s' t,
    for_each (enumerate_from start l) (process_json_request w) s = (Returns tt, s', t) /\
    synthesis_attempts t = files_of (with_text_from start l) /\
    skip_lines t = map (fun ir => skip_line (fst ir)) (without_text_from start l) /\
    incl (saved_files t) (synthesis_attempts t) /\
    (synthesis_always_succeeds w -> saved_files t = files_of (with_text_from start l)) /\
    (synthesis_always_fails w ->
       saved_files t = [] /\
       List.length (failure_lines t) = List.length (with_text_from start l)).
Proof.
  intros Hall. induction l as [|request l IH]; intros start s.
  - do 2 eexists. split; [reflexivity|]. simpl. repeat split; auto.
    apply incl_refl.
  - simpl in Hall. apply andb_true_iff in Hall as [Hreq Hall].
    destruct (json_request_run start request s Hreq)
      as (s1 & t1 & E1 & A1 & K1 & D1 & Ok1 & Ko1).
    destruct (IH Hall (S start) s1) as (s2 & t2 & E2 & A2 & K2 & D2 & Ok2 & Ko2).
    cbn [enumerate_from for_each]. unfold bind. rewrite E1, E2.
    do 2 eexists. split; [reflexivity|].
    unfold with_text_from, without_text_from in *. cbn [enumerate_from filter snd fst].
    rewrite !saved_files_app, !synthesis_attempts_app, !skip_lines_app, !failure_lines_app.
    assert (D : incl (saved_files t1 ++ saved_files t2)
                     (synthesis_attempts t1 ++ synthesis_attempts t2)).
    { apply incl_app_app; [|exact D2].
      destruct D1 as [-> | ->]; [apply incl_nil_l|apply incl_refl]. }
    rewrite K1, K2.
    split; [|split; [|split; [exact D|split]]].
    + rewrite A1, A2. destruct (has_text request); reflexivity.
    + destruct (has_text request); reflexivity.
    + intros H. rewrite (Ok1 H), (Ok2 H), A1.
      destruct (has_text request); reflexivity.
    + intros H. destruct (Ko1 H) as [-> F1]. destruct (Ko2 H) as [-> F2].
      split; [reflexivity|].
      rewrite length_app, F1, F2, A1.
      destruct (has_text request); reflexivity.
Qed.

(** [process_json_input] on a batch it can iterate: the run is the run
    of its loop, on a fresh engine, and the answer is true. *)
Lemma json_input_run (path : string) (data : pyval) (l : list pyval) (s : EdgeTTS) :
  json_load_path w path = Returns data ->
  batch_requests data = Some l ->
  exists s' t,
    process_json_input w path s = (Returns true, s', t) /\
    for_each (enumerate l) (process_json_request w) EdgeTTS_init = (Returns tt, s', t).
Proof.
  intros Hload Hbatch.
  destruct (batch_requests_get data l Hbatch) as (requests & Hget & Hiter & Hall).
  destruct (json_loop_run l Hall 0 EdgeTTS_init) as (s' & t & E & _).
  exists s', t. split; [|exact E].
  unfold process_json_input. unfold_monad. rewrite Hload, Hget. simpl.
  rewrite Hiter. simpl.
  unfold enumerate in *. rewrite E. simpl. rewrite app_nil_r. reflexivity.
Qed.

(** What the run of [process_json_input] leaves, by the batch read. *)
Lemma json_input_summary (path : string) (data : pyval) (l : list pyval) (s : EdgeTTS) :
  json_load_path w path = Returns data ->
  batch_requests data = Some l ->
  value (process_json_input w path s) = Returns true /\
  synthesis_attempts (events (process_json_input w path s)) = files_of (with_text_from 0 l) /\
  skip_lines (events (process_json_input w path s))
  = map (fun ir => skip_line (fst ir)) (without_text_from 0 l) /\
  incl (saved_files (events (process_json_input w path s)))
       (synthesis_attempts (events (process_json_input w path s))) /\
  (synthesis_always_succeeds w ->
     saved_files (events (process_json_input w path s)) = files_of (with_text_from 0 l)).
Proof.
  intros Hload Hbatch.
  destruct (json_input_run path data l s Hload Hbatch) as (s' & t & -> & E).
  destruct (batch_requests_get data l Hbatch) as (_ & _ & _ & Hall).
  destruct (json_loop_run l Hall 0 EdgeTTS_init)
    as (s2 & t2 & E2 & Hatt & Hskip & Hincl & Hok & _).
  unfold enumerate in E. rewrite E in E2. injection E2 as <- <-.
  unfold value, events. simpl. auto.
Qed.

End BatchLoop.

(** C2. For every batch file whose JSON loads and is iterated to the end
    ([batch_requests]: an object whose requests are all objects with a
    text that is absent, empty or a string; read where the bridge gets
    through), [process_json_input] returns true, whatever the synthesis
    service does. When the service fails on every request, no file is
    written, one failure line is printed per request with text, and the
    answer is still true. *)
Theorem process_json_input_returns_true
    (w : World) (path : string) (data : pyval) (l : list pyval) (s : EdgeTTS) :
  json_load_path w path = Returns data ->
  batch_requests data = Some l ->
  bridge_passes w = true ->
  value (process_json_input w path s) = Returns true /\
  (synthesis_always_fails w ->
     saved_files (events (process_json_input w path s)) = [] /\
     List.length (failure_lines (events (process_json_input w path s)))
     = List.length (with_text_from 0 l)).
Proof.
  intros Hload Hbatch Hbridge.
  destruct (json_input_run w Hbridge path data l s Hload Hbatch) as (s' & t & -> & E).
  split; [reflexivity|]. intros Hfail. unfold events. simpl.
  destruct (batch_requests_get data l Hbatch) as (_ & _ & _ & Hall).
  destruct (json_loop_run w Hbridge l Hall 0 EdgeTTS_init)
    as (s2 & t2 & E2 & _ & _ & _ & _ & Hko).
  unfold enumerate in E. rewrite E in E2. injection E2 as <- <-.
  exact (Hko Hfail).
Qed.

(** *** Positions in a batch *)

Lemma enumerate_from_length {A : Type} (l : list A) (start : nat) :
  List.length (enumerate_from start l) = List.length l.
Proof.
  revert start. induction l as [|x l IH]; intros start; simpl; [reflexivity|].
  rewrite IH. reflexivity.
Qed.

Lemma enumerate_from_app {A : Type} (l1 l2 : list A) (start : nat) :
  enumerate_from start (l1 ++ l2)
  = enumerate_from start l1 ++ enumerate_from (start + List.length l1) l2.
Proof.
  revert start. induction l1 as [|x l1 IH]; intros start; simpl.
  - rewrite Nat.add_0_r. reflexivity.
  - rewrite IH. rewrite Nat.add_succ_r. reflexivity.
Qed.

Lemma enumerate_from_nth_error {A : Type} (l : list A) (start i : nat) :
  nth_error (enumerate_from start l) i
  = option_map (fun x => (start + i, x)) (nth_error l i).
Proof.
  revert start i. induction l as [|x l IH]; intros start [|i]; simpl; try reflexivity.
  - rewrite Nat.add_0_r. reflexivity.
  - rewrite IH. rewrite Nat.add_succ_r. reflexivity.
Qed.

Lemma with_text_from_all (l : list pyval) (start : nat) :
  forallb has_text l = true -> with_text_from start l = enumerate_from start l.
Proof.
  unfold with_text_from. revert start.
  induction l as [|x l IH]; intros start Hall; simpl; [reflexivity|].
  simpl in Hall. apply andb_true_iff in Hall as [Hx Hall].
  rewrite Hx, (IH _ Hall). reflexivity.
Qed.

Lemma with_text_from_app (l1 l2 : list pyval) (start : nat) :
  with_text_from start (l1 ++ l2)
  = with_text_from start l1 ++ with_text_from (start + List.length l1) l2.
Proof. unfold with_text_from. rewrite enumerate_from_app. apply filter_app. Qed.

Lemma with_text_from_length_le (l : list pyval) (start : nat) :
  List.length (with_text_from start l) <= List.length l.
Proof.
  unfold with_text_from.
  rewrite <- (enumerate_from_length l start). apply filter_length_le.
Qed.

Lemma with_and_without_text (l : list pyval) (start : nat) :
  List.length (with_text_from start l) + List.length (without_text_from start l)
  = List.length l.
Proof.
  unfold with_text_from, without_text_from.
  rewrite filter_length. apply enumerate_from_length.
Qed.

(** What [request.get] finds under [output_file], at position [i]. *)
Lemma output_file_of_dict (i : nat) (items : list (string * pyval)) :
  output_file_of i (PyDict items)
  = match dict_lookup "output_file" items with
    | Some name => name
    | None => PyStr ("output_" ++ str_of_nat (i + 1) ++ ".mp3")
    end.
Proof. reflexivity. Qed.

(** *** Default names tell positions apart *)

Lemma str_of_nat_inj (a b : nat) : str_of_nat a = str_of_nat b -> a = b.
Proof.
  unfold str_of_nat. intros H.
  apply (f_equal NilEmpty.uint_of_string) in H. rewrite !NilEmpty.usu in H.
  injection H as H. apply (f_equal Nat.of_uint) in H.
  rewrite !DecimalNat.Unsigned.of_to in H. exact H.
Qed.

Lemma string_length_append (a b : string) :
  String.length (a ++ b) = String.length a + String.length b.
Proof. induction a as [|c a IH]; simpl; [reflexivity|]. rewrite IH. reflexivity. Qed.

Lemma append_cancel_tail (a b c : string) : (a ++ c = b ++ c)%string -> a = b.
Proof.
  revert b. induction a as [|x a IH]; intros [|y b] H; simpl in H.
  - reflexivity.
  - apply (f_equal String.length) in H. simpl in H.
    rewrite string_length_append in H. lia.
  - apply (f_equal String.length) in H. simpl in H.
    rewrite string_length_append in H. lia.
  - injection H as -> H. rewrite (IH b H). reflexivity.
Qed.

Lemma default_output_file_inj (i k : nat) :
  default_output_file i = default_output_file k -> i = k.
Proof.
  unfold default_output_file. intros H. simpl in H.
  injection H as H. apply append_cancel_tail in H. apply str_of_nat_inj in H. lia.
Qed.

(** C6. For every batch of N requests that all carry text, with a
    synthesis service that answers every call, [process_json_input] writes
    N files, one per request and in batch order, the i-th being the one
    the i-th request names: its [output_file] field when it has one, and
    output_(i+1).mp3 when it has none (i counted from zero). *)
Theorem batch_writes_one_file_per_request
    (w : World) (path : string) (data : pyval) (l : list pyval) (s : EdgeTTS) :
  json_load_path w path = Returns data ->
  batch_requests data = Some l ->
  forallb has_text l = true ->
  bridge_passes w = true ->
  synthesis_always_succeeds w ->
  saved_files (events (process_json_input w path s)) = files_of (enumerate l) /\
  List.length (saved_files (events (process_json_input w path s))) = List.length l /\
  forall (i : nat) (items : list (string * pyval)),
    nth_error l i = Some (PyDict items) ->
    nth_error (saved_files (events (process_json_input w path s))) i
    = Some (match dict_lookup "output_file" items with
            | Some name => name
            | None => PyStr ("output_" ++ str_of_nat (i + 1) ++ ".mp3")
            end).
Proof.
  intros Hload Hbatch Htext Hbridge Hok.
  destruct (json_input_summary w Hbridge path data l s Hload Hbatch)
    as (_ & _ & _ & _ & Hsaved).
  rewrite (Hsaved Hok), (with_text_from_all l 0 Htext). unfold files_of, enumerate.
  split; [reflexivity|]. split.
  - rewrite length_map. apply enumerate_from_length.
  - intros i items Hi.
    rewrite nth_error_map, enumerate_from_nth_error, Hi. reflexivity.
Qed.

(** C10. In [process_json_input] the default file name of a request
    comes from its position in the batch as read. A request without text
    uses up its position: a later request with text and no [output_file]
    field, at position i, is sent to synthesis as output_(i+1).mp3, though
    fewer than i requests went before it; its name is not the one its rank
    among the processed requests would give. *)
Theorem default_name_keeps_batch_position
    (w : World) (path : string) (data : pyval) (s : EdgeTTS)
    (before between rest : list pyval) (skipped : pyval)
    (items : list (string * pyval)) :
  json_load_path w path = Returns data ->
  batch_requests data
  = Some (before ++ skipped :: between ++ PyDict items :: rest) ->
  has_text skipped = false ->
  has_text (PyDict items) = true ->
  dict_lookup "output_file" items = None ->
  bridge_passes w = true ->
  exists rank : nat,
    rank < List.length before + 1 + List.length between /\
    nth_error (synthesis_attempts (events (process_json_input w path s))) rank
    = Some (PyStr (default_output_file (List.length before + 1 + List.length between))) /\
    default_output_file (List.length before + 1 + List.length between)
    <> default_output_file rank /\
    (synthesis_always_succeeds w ->
       nth_error (saved_files (events (process_json_input w path s))) rank
       = Some (PyStr (default_output_file (List.length before + 1 + List.length between)))).
Proof.
  intros Hload Hbatch Hskip Htext Hname Hbridge.
  destruct (json_input_summary w Hbridge path data _ s Hload Hbatch)
    as (_ & Hatt & _ & _ & Hsaved).
  assert (Hsplit : with_text_from 0 (before ++ skipped :: between ++ PyDict items :: rest)
            = (with_text_from 0 before
               ++ with_text_from (List.length before + 1) between)
              ++ (List.length before + 1 + List.length between, PyDict items)
                 :: with_text_from (List.length before + 1 + List.length between + 1) rest).
  { rewrite with_text_from_app. simpl.
    change (skipped :: between ++ PyDict items :: rest)
      with ([skipped] ++ between ++ [PyDict items] ++ rest).
    rewrite !with_text_from_app. simpl.
    unfold with_text_from at 2. simpl. rewrite Hskip. simpl.
    unfold with_text_from at 3. cbn [enumerate_from filter snd]. rewrite Htext.
    rewrite <- app_assoc. reflexivity. }
  exists (List.length (with_text_from 0 before
                       ++ with_text_from (List.length before + 1) between)).
  assert (Hrank : List.length (with_text_from 0 before
                               ++ with_text_from (List.length before + 1) between)
                  < List.length before + 1 + List.length between).
  { rewrite length_app.
    pose proof (with_text_from_length_le before 0).
    pose proof (with_text_from_length_le between (List.length before + 1)). lia. }
  assert (Hnth : forall tail,
            nth_error (files_of ((with_text_from 0 before
                                  ++ with_text_from (List.length before + 1) between)
                                 ++ (List.length before + 1 + List.length between,
                                     PyDict items) :: tail))
                      (List.length (with_text_from 0 before
                                    ++ with_text_from (List.length before + 1) between))
            = Some (PyStr (default_output_file
                             (List.length before + 1 + List.length between)))).
  { intros tail. unfold files_of. rewrite map_app.
    rewrite nth_error_app2; rewrite length_map; [|apply Nat.le_refl].
    rewrite Nat.sub_diag. simpl. rewrite output_file_of_dict, Hname. reflexivity. }
  split; [exact Hrank|]. split; [|split].
  - rewrite Hatt, Hsplit. apply Hnth.
  - intros Heq. apply default_output_file_inj in Heq. lia.
  - intros Hok. rewrite (Hsaved Hok), Hsplit. apply Hnth.
Qed.

(* ------------------------------------------------------------------ *)
(** ** HTTP Service *)

(** [generate_speech] never raises. With a text that can be sliced it sets
    the shared engine and answers what the pipeline answers. *)
Lemma http_generate_speech_run
    (w : World) (text voice rate volume output_file translate_to_hindi : pyval) (s : EdgeTTS) :
  exists b s' t,
    generate_speech w text voice rate volume output_file translate_to_hindi s
    = (Returns b, s', t) /\
    saved_files t = (if b then [output_file] else []) /\
    incl (synthesis_attempts t) [output_file] /\
    (sliceable text = true -> synthesis_attempts t = [output_file]) /\
    skip_lines t = [] /\
    incl (played t) (saved_files t) /\
    (supported_platform w = true -> incl (saved_files t) (played t)) /\
    (b = true ->
       exists pre post,
         t = pre ++ Print [Lit "Playing audio..."]
                 :: events (play_audio w output_file (mkEdgeTTS voice rate volume))
                 ++ post) /\
    (sliceable text = true -> synthesis_always_succeeds w -> b = true).
Proof.
  unfold generate_speech, set_voice, set_rate, set_volume. unfold_monad.
  destruct (py_slice_to 30 text) as [head|e] eqn:Eslice; simpl.
  - destruct (speak_async_run w text output_file translate_to_hindi
                (mkEdgeTTS voice rate volume))
      as (b & t & Ea & Hsaved & Hatt & Hskip & _ & Hp1 & Hp2 & Hplay & Hok & _).
    rewrite Ea. simpl. rewrite Hsaved in Hp1, Hp2.
    destruct b; simpl; do 3 eexists; (split; [reflexivity|]);
      trace_simpl; rewrite Hsaved, Hatt, Hskip; simpl; rewrite ?app_nil_r.
    + repeat split; auto; try apply incl_refl.
      intros _. destruct (Hplay eq_refl) as (pre & ->).
      eexists (_ :: pre), [_]. simpl. rewrite <- app_assoc. reflexivity.
    + repeat split; auto; try apply incl_refl; try discriminate.
  - do 3 eexists. split; [reflexivity|]. simpl.
    repeat split; auto; try apply incl_nil_l; try discriminate.
    + intros Hs. destruct (sliceable_slice text 30 Hs) as (head & Hhead). congruence.
    + intros _. apply incl_refl.
    + intros Hs. destruct (sliceable_slice text 30 Hs) as (head & Hhead). congruence.
Qed.

Lemma is_upload_request_shape (request : pyval) :
  is_upload_request request = true ->
  is_request request = true /\
  exists items,
    request = PyDict items /\
    (has_text request = true -> sliceable (text_of request) = true) /\
    forall i, exists name, output_file_of i request = PyStr name.
Proof.
  unfold is_upload_request. intros H. apply andb_true_iff in H as [Hreq Hname].
  split; [exact Hreq|].
  destruct request as [| | | | | |items]; try discriminate Hreq.
  exists items. split; [reflexivity|]. split.
  - unfold is_request, has_text in *. intros Ht. rewrite Ht in Hreq. exact Hreq.
  - intros i. unfold output_file_of in *. simpl in *.
    destruct (dict_lookup "output_file" items) as [[| | | |name| |]|];
      try discriminate Hname; eauto.
Qed.

(** One turn of the loop of POST /tts on a request it can place. Without
    text the turn does nothing at all: no event, no file, the engine
    untouched. With text it asks for synthesis once, into the output
    directory, and appends the path when synthesis succeeds. *)
Lemma tts_request_run
    (w : World) (i : nat) (request : pyval) (acc : list string) (s : EdgeTTS) :
  is_upload_request request = true ->
  exists files s' t,
    process_tts_request w acc (i, request) s = (Returns (acc ++ files), s', t) /\
    (has_text request = false -> files = [] /\ t = [] /\ s' = s) /\
    synthesis_attempts t
    = (if has_text request then [PyStr (output_path_of w i request)] else []) /\
    saved_files t = map PyStr files /\
    skip_lines t = [] /\
    incl (played t) (saved_files t) /\
    (supported_platform w = true -> incl (saved_files t) (played t)) /\
    (synthesis_always_succeeds w ->
       files = if has_text request then [output_path_of w i request] else []) /\
    incl (saved_files t) (synthesis_attempts t).
Proof.
  intros Hup. destruct (is_upload_request_shape request Hup)
    as (_ & items & -> & Hslice & Hname).
  destruct (Hname i) as (name & Ename).
  unfold output_path_of. rewrite Ename.
  unfold has_text, text_of, output_file_of in *. simpl in Hslice, Ename |- *.
  unfold process_tts_request. simpl py_get.
  rewrite bind_call_returns.
  destruct (truthy match dict_lookup "text" items with
                   | Some x => x | None => PyStr "" end) eqn:Etruthy; cbn [negb].
  - rewrite !bind_call_returns, Ename. cbn [path_join]. rewrite bind_call_returns.
    match goal with
    | |- context [generate_speech w ?a ?b ?c ?d ?e ?f] =>
        destruct (http_generate_speech_run w a b c d e f s)
          as (b0 & s' & t & E & Hsaved & _ & Hatt & Hskip & Hp1 & Hp2 & _ & Hok)
    end.
    rewrite (bind_runs _ _ _ _ _ _ E).
    specialize (Hatt (Hslice eq_refl)). specialize (Hok (Hslice eq_refl)).
    destruct b0; unfold ret, value, engine, events; simpl; rewrite app_nil_r.
    + exists [os_path_join w (OUTPUT_DIR w) name]. do 2 eexists.
      split; [reflexivity|]. rewrite Hsaved in Hp1, Hp2 |- *. rewrite Hatt.
      repeat split; auto; try discriminate; try apply incl_refl.
    + exists []. do 2 eexists. rewrite app_nil_r.
      split; [reflexivity|]. rewrite Hsaved in Hp1, Hp2 |- *. rewrite Hatt.
      repeat split; auto; try discriminate; try apply incl_nil_l.
      intros H. discriminate (Hok H).
  - exists []. do 2 eexists. unfold ret. rewrite app_nil_r.
    split; [reflexivity|]. simpl. repeat split; auto; try apply incl_refl.
    intros _. apply incl_refl.
Qed.

(** The loop of POST /tts over requests it can place: one synthesis
    request per request with text, in batch order, nothing at all for the
    others; the list it builds holds the files written. *)
Lemma tts_loop_run (w : World) (l : list pyval) :
  forallb is_upload_request l = true ->
  forall (start : nat) (acc : list string) (s : EdgeTTS),
  exists files s' t,
    for_fold (enumerate_from start l) acc (process_tts_request w) s
    = (Returns (acc ++ files), s', t) /\
    synthesis_attempts t = map PyStr (paths_of w (with_text_from start l)) /\
    saved_files t = map PyStr files /\
    skip_lines t = [] /\
    incl (played t) (saved_files t) /\
    (supported_platform w = true -> incl (saved_files t) (played t)) /\
    (synthesis_always_succeeds w -> files = paths_of w (with_text_from start l)) /\
    incl (saved_files t) (synthesis_attempts t).
Proof.
  intros Hall. induction l as [|request l IH]; intros start acc s.
  - exists []. do 2 eexists. simpl. unfold ret. rewrite app_nil_r.
    split; [reflexivity|]. repeat split; auto; try apply incl_refl.
    intros _. apply incl_refl.
  - simpl in Hall. apply andb_true_iff in Hall as [Hreq Hall].
    destruct (tts_request_run w start request acc s Hreq)
      as (f1 & s1 & t1 & E1 & _ & A1 & S1 & K1 & P1 & Q1 & Ok1 & I1).
    destruct (IH Hall (S start) (acc ++ f1) s1)
      as (f2 & s2 & t2 & E2 & A2 & S2 & K2 & P2 & Q2 & Ok2 & I2).
    assert (I : incl (saved_files t1 ++ saved_files t2)
                     (synthesis_attempts t1 ++ synthesis_attempts t2))
      by (apply incl_app_app; assumption).
    cbn [enumerate_from for_fold]. rewrite (bind_runs _ _ _ _ _ _ E1), E2.
    exists (f1 ++ f2). do 2 eexists. rewrite app_assoc.
    split; [reflexivity|]. unfold events. cbn [snd].
    rewrite !saved_files_app, !synthesis_attempts_app, !skip_lines_app, !played_app.
    split; [|split; [|split; [|split; [|split; [|split; [|exact I]]]]]].
    + rewrite A1, A2. unfold with_text_from, paths_of. cbn [enumerate_from filter snd].
      destruct (has_text request); reflexivity.
    + rewrite S1, S2, map_app. reflexivity.
    + rewrite K1, K2. reflexivity.
    + apply incl_app_app; assumption.
    + intros Hsup. apply incl_app_app; auto.
    + intros Hok. rewrite (Ok1 Hok), (Ok2 Hok).
      unfold with_text_from, paths_of. cbn [enumerate_from filter snd].
      destruct (has_text request); reflexivity.
Qed.

Lemma to_process_upload (return_first_only : bool) (l : list pyval) :
  forallb is_upload_request l = true ->
  forallb is_upload_request (to_process return_first_only l) = true.
Proof.
  intros Hall. unfold to_process. destruct return_first_only; [|exact Hall].
  destruct l as [|x l]; [reflexivity|]. simpl in *.
  apply andb_true_iff in Hall as [-> _]. reflexivity.
Qed.

Lemma batch_requests_nonempty (data : pyval) (l : list pyval) :
  batch_requests data = Some l -> l <> [] ->
  py_in "requests" data = Returns true /\
  py_getitem data "requests" = Returns (PyList l) /\
  accepted_shape data = true.
Proof.
  unfold batch_requests, py_in, py_getitem, accepted_shape, py_get.
  destruct data as [| | | | | |items]; try discriminate.
  destruct (dict_lookup "requests" items) as [[| | | |str|l'|d]|]; simpl; try discriminate.
  - destruct str as [|c str]; simpl; [|discriminate].
    intros [= <-] Hne. contradiction.
  - destruct (forallb is_request l'); [|discriminate].
    intros [= <-] Hne. destruct l'; [contradiction|]. auto.
  - destruct d as [|[k v] d]; simpl; [|discriminate].
    intros [= <-] Hne. contradiction.
  - intros [= <-] Hne. contradiction.
Qed.

(** POST /tts on an accepted batch: a temporary directory is made, the
    upload is written and printed, the loop runs over the requests to
    process, the response is built from the files of the loop, and the
    directory is removed. *)
Lemma tts_json_run (w : World) (file : UploadFile) (return_first_only : bool)
    (content : string) (data : pyval) (l : list pyval) (s : EdgeTTS) :
  upload_text file = Returns content ->
  upload_json file = Returns data ->
  batch_requests data = Some l ->
  l <> [] ->
  forallb is_upload_request l = true ->
  exists files s' t,
    for_fold (enumerate (to_process return_first_only l)) [] (process_tts_request w) s
    = (Returns files, s', t) /\
    process_tts_json w file return_first_only s
    = (Returns (respond w return_first_only files), s',
       [Mkdtemp; WriteUpload (os_path_join w (mkdtemp w) "input.json");
        Print [Lit "Received JSON content: "; Lit content]]
       ++ t ++ [Rmtree (mkdtemp w)]).
Proof.
  intros Htext Hjson Hbatch Hne Hall.
  destruct (batch_requests_nonempty data l Hbatch Hne) as (Hin & Hget & _).
  destruct (tts_loop_run w _ (to_process_upload return_first_only l Hall) 0 [] s)
    as (files & s' & t & E & _).
  simpl in E. exists files, s', t. split; [exact E|].
  unfold process_tts_json. unfold_monad. rewrite Htext, Hjson. simpl.
  rewrite Hin, Hget. simpl.
  destruct l as [|x l]; [contradiction|]. simpl.
  unfold to_process, enumerate in E.
  destruct return_first_only; simpl; unfold enumerate; simpl in E |- *;
    rewrite E; simpl; rewrite ?app_nil_r; reflexivity.
Qed.

(** C8. For every upload whose parsed JSON is not an object holding a
    non-empty list under [requests] (the key is missing, its value is not
    a list, or the list is empty), POST /tts answers a JSON object with an
    [error] key: no file response, and no synthesis is asked for. *)
Theorem tts_rejects_malformed_batch
    (w : World) (file : UploadFile) (return_first_only : bool) (data : pyval) (s : EdgeTTS) :
  upload_json file = Returns data ->
  accepted_shape data = false ->
  (exists msg : string,
     value (process_tts_json w file return_first_only s) = Returns (error_body msg)) /\
  synthesis_attempts (events (process_tts_json w file return_first_only s)) = [].
Proof.
  intros Hjson Hshape. unfold process_tts_json. unfold_monad.
  destruct (upload_text file) as [content|e]; simpl; [|eauto].
  rewrite Hjson. simpl.
  destruct data as [| |n|f|str|l|items]; simpl; eauto.
  - destruct (str_contains "requests" str); simpl; eauto.
  - destruct (existsb (is_str "requests") l); simpl; eauto.
  - unfold accepted_shape in Hshape.
    destruct (dict_lookup "requests" items) as [[| | | | |[|x l]|]|]; simpl; eauto.
    discriminate Hshape.
Qed.

(** C8 at three uploads: no [requests] key, a [requests] that is not a
    list, an empty [requests] list. *)
Lemma tts_rejects_malformed_batch_witness :
  value (process_tts_json (Sample.linux []) (Sample.upload (PyDict [("items", PyList [])]))
           false EdgeTTS_init)
  = Returns (error_body "Invalid JSON format. Expected 'requests' array.") /\
  value (process_tts_json (Sample.linux []) (Sample.upload (PyDict [("requests", PyStr "hello")]))
           false EdgeTTS_init)
  = Returns (error_body "Invalid JSON format. Expected 'requests' array.") /\
  value (process_tts_json (Sample.linux []) (Sample.upload (Sample.batch []))
           false EdgeTTS_init)
  = Returns (error_body "No requests found in JSON") /\
  ((exists msg : string,
      value (process_tts_json (Sample.linux []) (Sample.upload (Sample.batch []))
               false EdgeTTS_init) = Returns (error_body msg)) /\
   synthesis_attempts
     (events (process_tts_json (Sample.linux []) (Sample.upload (Sample.batch []))
                false EdgeTTS_init)) = []).
Proof.
  split; [reflexivity|]. split; [reflexivity|]. split; [reflexivity|].
  apply (tts_rejects_malformed_batch (Sample.linux []) (Sample.upload (Sample.batch []))
           false (Sample.batch []) EdgeTTS_init); reflexivity.
Defined.

(** C3, as the spec states it, fails on the CLI path: a file that is not
    JSON makes [json.load] raise JSONDecodeError, and [process_json_input]
    catches it, prints it and returns false; nothing reaches the caller. *)
Lemma process_json_input_catches_invalid_json :
  process_json_input
    (Sample.linux [("broken.json",
                    Raises (mkExn JSONDecodeError
                              "Expecting value: line 1 column 1 (char 0)"))])
    "broken.json" EdgeTTS_init
  = (Returns false, EdgeTTS_init,
     [Print [Lit "Error processing JSON input: ";
             Lit "Expecting value: line 1 column 1 (char 0)"]]).
Proof. reflexivity. Qed.

(** C3, amended. For every input that is not JSON, neither path raises:
    [process_json_input] prints the error and returns false, and POST /tts
    answers a JSON object with an [error] key that carries the message of
    the parser. *)
Theorem invalid_json_is_caught_on_both_paths
    (w : World) (path : string) (file : UploadFile) (return_first_only : bool)
    (content : string) (e : exn) (s : EdgeTTS) :
  isinstance_JSONDecodeError e = true ->
  json_load_path w path = Raises e ->
  upload_text file = Returns content ->
  upload_json file = Raises e ->
  process_json_input w path s
  = (Returns false, s, [Print [Lit "Error processing JSON input: "; Lit (exn_str e)]]) /\
  value (process_tts_json w file return_first_only s)
  = Returns (error_body ("Invalid JSON format: " ++ exn_str e)).
Proof.
  intros Hcls Hload Htext Hjson. split.
  - unfold process_json_input. unfold_monad. rewrite Hload. reflexivity.
  - unfold process_tts_json. unfold_monad. rewrite Htext. simpl.
    rewrite Hjson, Hcls. reflexivity.
Qed.

(** C3 at a file and an upload that hold no JSON. *)
Lemma invalid_json_is_caught_witness :
  process_json_input
    (Sample.linux [("broken.json",
                    Raises (mkExn JSONDecodeError "Expecting value: line 1 column 1 (char 0)"))])
    "broken.json" EdgeTTS_init
  = (Returns false, EdgeTTS_init,
     [Print [Lit "Error processing JSON input: ";
             Lit "Expecting value: line 1 column 1 (char 0)"]]) /\
  value (process_tts_json (Sample.linux [])
           {| upload_text := Returns "not json";
              upload_json := Raises (mkExn JSONDecodeError
                                       "Expecting value: line 1 column 1 (char 0)") |}
           false EdgeTTS_init)
  = Returns (error_body "Invalid JSON format: Expecting value: line 1 column 1 (char 0)").
Proof.
  apply (invalid_json_is_caught_on_both_paths
           (Sample.linux [("broken.json",
                           Raises (mkExn JSONDecodeError
                                     "Expecting value: line 1 column 1 (char 0)"))])
           "broken.json"
           {| upload_text := Returns "not json";
              upload_json := Raises (mkExn JSONDecodeError
                                       "Expecting value: line 1 column 1 (char 0)") |}
           false "not json"
           (mkExn JSONDecodeError "Expecting value: line 1 column 1 (char 0)")
           EdgeTTS_init); reflexivity.
Defined.

(** C4, as the spec states it, fails: POST /tts with one request, on a
    Linux host where synthesis succeeds, runs the aplay command of
    [play_audio] on the file it has just generated. *)
Lemma http_request_plays_audio_on_the_server :
  played (events (process_tts_json (Sample.linux [])
                    (Sample.upload (Sample.batch [Sample.request [("text", PyStr "hello")]]))
                    false EdgeTTS_init))
  = [PyStr "/srv/tts_output/output_1.mp3"] /\
  In (System (play_command "aplay" (PyStr "/srv/tts_output/output_1.mp3")))
     (events (process_tts_json (Sample.linux [])
                (Sample.upload (Sample.batch [Sample.request [("text", PyStr "hello")]]))
                false EdgeTTS_init)).
Proof. split; [reflexivity|]. simpl. auto 20. Qed.

(** C4, amended. The HTTP Service runs the same pipeline as the CLI path:
    [generate_speech] never raises, and whenever it answers true the run
    of [play_audio] on the generated file is part of its run, so that on a
    platform with a branch the file is handed to the player. When it
    answers false nothing is played. *)
Theorem http_generate_speech_plays_audio
    (w : World) (text voice rate volume output_file translate_to_hindi : pyval) (s : EdgeTTS) :
  exists b : bool,
    value (generate_speech w text voice rate volume output_file translate_to_hindi s)
    = Returns b /\
    (b = true ->
       (exists pre post,
          events (generate_speech w text voice rate volume output_file translate_to_hindi s)
          = pre ++ Print [Lit "Playing audio..."]
                :: events (play_audio w output_file (mkEdgeTTS voice rate volume))
                ++ post) /\
       (supported_platform w = true ->
          In output_file
             (played (events (generate_speech w text voice rate volume output_file
                                translate_to_hindi s))))) /\
    (b = false ->
       played (events (generate_speech w text voice rate volume output_file
                         translate_to_hindi s)) = []) /\
    (sliceable text = true -> synthesis_always_succeeds w -> b = true).
Proof.
  destruct (http_generate_speech_run w text voice rate volume output_file
              translate_to_hindi s)
    as (b & s' & t & E & Hsaved & _ & _ & _ & Hp1 & Hp2 & Hplay & Hok).
  exists b. rewrite E. unfold value, events. simpl.
  split; [reflexivity|]. split; [|split; [|exact Hok]].
  - intros ->. split; [exact (Hplay eq_refl)|].
    intros Hsup. apply (Hp2 Hsup). rewrite Hsaved. left. reflexivity.
  - intros ->. rewrite Hsaved in Hp1. apply incl_l_nil. exact Hp1.
Qed.

(** Over a whole accepted upload: nothing is played but files just
    generated, and on a platform with a branch every generated file is
    handed to the player. *)
Lemma http_service_plays_what_it_generates
    (w : World) (file : UploadFile) (return_first_only : bool)
    (content : string) (data : pyval) (l : list pyval) (s : EdgeTTS) :
  upload_text file = Returns content ->
  upload_json file = Returns data ->
  batch_requests data = Some l ->
  l <> [] ->
  forallb is_upload_request l = true ->
  incl (played (events (process_tts_json w file return_first_only s)))
       (saved_files (events (process_tts_json w file return_first_only s))) /\
  (supported_platform w = true ->
     incl (saved_files (events (process_tts_json w file return_first_only s)))
          (played (events (process_tts_json w file return_first_only s)))).
Proof.
  intros Htext Hjson Hbatch Hne Hall.
  destruct (tts_json_run w file return_first_only content data l s
              Htext Hjson Hbatch Hne Hall) as (files & s' & t & E & ->).
  destruct (tts_loop_run w _ (to_process_upload return_first_only l Hall) 0 [] s)
    as (files' & s2 & t2 & E2 & _ & _ & _ & P1 & P2 & _).
  unfold enumerate in E. rewrite E in E2. injection E2 as _ <- <-.
  unfold events. cbn [snd]. trace_simpl. auto.
Qed.

(* ------------------------------------------------------------------ *)
(** ** Requests without text *)

(** C7, as the spec states it, fails on the HTTP path: POST /tts skips a
    request without text but prints nothing about it. Here the first of
    two requests has no text; the lines printed are all about the upload
    and the second request. The CLI path, on the same batch, prints the
    skip line. *)
Lemma http_skip_is_not_logged :
  printed (events (process_tts_json (Sample.linux [])
                     (Sample.upload (Sample.batch Sample.silent_then_hello))
                     false EdgeTTS_init))
  = [[Lit "Received JSON content: "; Lit "(the uploaded text)"];
     [Lit "Generating speech: '"; Val (PyStr "hello"); Lit "...'"];
     [Lit "Text processed in "; Elapsed; Lit " seconds"];
     [Lit "Playing audio..."];
     [Lit "Speech generation successful: "; Val (PyStr "/srv/tts_output/output_2.mp3")]] /\
  synthesis_attempts
    (events (process_tts_json (Sample.linux [])
               (Sample.upload (Sample.batch Sample.silent_then_hello))
               false EdgeTTS_init))
  = [PyStr "/srv/tts_output/output_2.mp3"] /\
  skip_lines
    (events (process_json_input
               (Sample.linux [("batch.json", Returns (Sample.batch Sample.silent_then_hello))])
               "batch.json" EdgeTTS_init))
  = [Print [Lit "Skipping request #"; Lit "1"; Lit ": Empty text"]].
Proof. repeat split. Qed.

(** C7, amended. On both paths a request without text is skipped: no
    synthesis is asked for it and no file is written for it, and the
    requests after it are processed in batch order. The CLI path prints a
    skip line for it; the HTTP path does nothing at all for it, not even a
    line. With a synthesis service that answers every call, a batch of N
    requests of which exactly one has no text yields N-1 files, on the CLI
    path and on the HTTP path when all requests are to be processed. *)
Theorem empty_text_requests_are_skipped
    (w : World) (path : string) (file : UploadFile) (content : string)
    (data : pyval) (l : list pyval) (s : EdgeTTS) :
  batch_requests data = Some l ->
  (json_load_path w path = Returns data ->
   bridge_passes w = true ->
   value (process_json_input w path s) = Returns true /\
   synthesis_attempts (events (process_json_input w path s))
   = files_of (with_text_from 0 l) /\
   incl (saved_files (events (process_json_input w path s)))
        (files_of (with_text_from 0 l)) /\
   skip_lines (events (process_json_input w path s))
   = map (fun ir => skip_line (fst ir)) (without_text_from 0 l) /\
   (synthesis_always_succeeds w ->
      saved_files (events (process_json_input w path s)) = files_of (with_text_from 0 l) /\
      (List.length (without_text_from 0 l) = 1 ->
       List.length (saved_files (events (process_json_input w path s)))
       = List.length l - 1))) /\
  (upload_text file = Returns content ->
   upload_json file = Returns data ->
   l <> [] ->
   forallb is_upload_request l = true ->
   synthesis_attempts (events (process_tts_json w file false s))
   = map PyStr (paths_of w (with_text_from 0 l)) /\
   incl (saved_files (events (process_tts_json w file false s)))
        (map PyStr (paths_of w (with_text_from 0 l))) /\
   skip_lines (events (process_tts_json w file false s)) = [] /\
   (synthesis_always_succeeds w ->
      saved_files (events (process_tts_json w file false s))
      = map PyStr (paths_of w (with_text_from 0 l)) /\
      (List.length (without_text_from 0 l) = 1 ->
       List.length (saved_files (events (process_tts_json w file false s)))
       = List.length l - 1))) /\
  (forall (i : nat) (request : pyval) (acc : list string) (s0 : EdgeTTS),
     is_upload_request request = true ->
     has_text request = false ->
     process_tts_request w acc (i, request) s0 = (Returns acc, s0, [])).
Proof.
  intros Hbatch. split; [|split].
  - intros Hload Hbridge.
    destruct (json_input_summary w Hbridge path data l s Hload Hbatch)
      as (Hval & Hatt & Hskip & Hincl & Hok).
    rewrite Hatt in Hincl. repeat split; auto.
    rewrite (Hok H). unfold files_of. rewrite length_map.
    pose proof (with_and_without_text l 0). lia.
  - intros Htext Hjson Hne Hall.
    destruct (tts_json_run w file false content data l s Htext Hjson Hbatch Hne Hall)
      as (files & s' & t & E & ->).
    destruct (tts_loop_run w _ Hall 0 [] s)
      as (files' & s2 & t2 & E2 & Hatt & Hsaved & Hskip & _ & _ & Hok & Hincl).
    unfold to_process, enumerate in E. rewrite E in E2. injection E2 as <- <- <-.
    unfold events. cbn [snd]. trace_simpl. rewrite Hatt in Hincl.
    repeat split; auto.
    + rewrite Hsaved, (Hok H). reflexivity.
    + rewrite Hsaved, (Hok H). unfold paths_of. rewrite !length_map.
      pose proof (with_and_without_text l 0). lia.
  - intros i request acc s0 Hup Hno.
    destruct (tts_request_run w i request acc s0 Hup)
      as (f & s1 & t1 & E & Hnone & _).
    destruct (Hnone Hno) as (-> & -> & ->). rewrite E, app_nil_r. reflexivity.
Qed.

(* ------------------------------------------------------------------ *)
(** ** The theorems at sample batches *)

Lemma linux_always_succeeds (files : list (string * result pyval)) :
  synthesis_always_succeeds (Sample.linux files).
Proof. intros text voice rate volume output_file. reflexivity. Qed.

Lemma rejecting_always_fails (files : list (string * result pyval)) :
  synthesis_always_fails (Sample.rejecting files).
Proof. intros text voice rate volume output_file. eexists. reflexivity. Qed.

(** C2 at a batch of two requests, with a synthesis service that rejects
    both: nothing is written, two failure lines are printed, and the
    answer is true. *)
Lemma process_json_input_returns_true_witness :
  json_load_path (Sample.rejecting (Sample.batch_files Sample.greeting_then_hello))
    "batch.json" = Returns (Sample.batch Sample.greeting_then_hello) /\
  batch_requests (Sample.batch Sample.greeting_then_hello)
  = Some Sample.greeting_then_hello /\
  bridge_passes (Sample.rejecting (Sample.batch_files Sample.greeting_then_hello)) = true /\
  value (process_json_input
           (Sample.rejecting (Sample.batch_files Sample.greeting_then_hello))
           "batch.json" EdgeTTS_init) = Returns true /\
  saved_files (events (process_json_input
                         (Sample.rejecting (Sample.batch_files Sample.greeting_then_hello))
                         "batch.json" EdgeTTS_init)) = [] /\
  List.length (failure_lines
                 (events (process_json_input
                            (Sample.rejecting (Sample.batch_files Sample.greeting_then_hello))
                            "batch.json" EdgeTTS_init))) = 2.
Proof.
  split; [reflexivity|]. split; [reflexivity|]. split; [reflexivity|].
  destruct (process_json_input_returns_true
              (Sample.rejecting (Sample.batch_files Sample.greeting_then_hello))
              "batch.json" (Sample.batch Sample.greeting_then_hello)
              Sample.greeting_then_hello EdgeTTS_init eq_refl eq_refl eq_refl)
    as [Hvalue Hfail].
  split; [exact Hvalue|]. exact (Hfail (rejecting_always_fails _)).
Defined.

(** C6 at a batch of two requests, the first naming its file. *)
Lemma batch_writes_one_file_per_request_witness :
  forallb has_text Sample.greeting_then_hello = true /\
  List.length
    (saved_files (events (process_json_input
                            (Sample.with_batch_file Sample.greeting_then_hello)
                            "batch.json" EdgeTTS_init))) = 2 /\
  nth_error
    (saved_files (events (process_json_input
                            (Sample.with_batch_file Sample.greeting_then_hello)
                            "batch.json" EdgeTTS_init))) 0
  = Some (PyStr "greeting.mp3") /\
  nth_error
    (saved_files (events (process_json_input
                            (Sample.with_batch_file Sample.greeting_then_hello)
                            "batch.json" EdgeTTS_init))) 1
  = Some (PyStr "output_2.mp3").
Proof.
  split; [reflexivity|].
  destruct (batch_writes_one_file_per_request
              (Sample.with_batch_file Sample.greeting_then_hello)
              "batch.json" (Sample.batch Sample.greeting_then_hello)
              Sample.greeting_then_hello EdgeTTS_init
              eq_refl eq_refl eq_refl eq_refl (linux_always_succeeds _))
    as (_ & Hlen & Hnth).
  split; [exact Hlen|]. split.
  - exact (Hnth 0 _ eq_refl).
  - exact (Hnth 1 _ eq_refl).
Defined.

(** C10 at a batch whose first request has no text: the second request
    is the first to be processed, and its file is output_2.mp3. *)
Lemma default_name_keeps_batch_position_witness :
  has_text (Sample.request [("text", PyStr "")]) = false /\
  exists rank : nat,
    rank < 1 /\
    nth_error (synthesis_attempts
                 (events (process_json_input
                            (Sample.with_batch_file Sample.silent_then_hello)
                            "batch.json" EdgeTTS_init))) rank
    = Some (PyStr "output_2.mp3") /\
    nth_error (saved_files
                 (events (process_json_input
                            (Sample.with_batch_file Sample.silent_then_hello)
                            "batch.json" EdgeTTS_init))) rank
    = Some (PyStr "output_2.mp3").
Proof.
  split; [reflexivity|].
  destruct (default_name_keeps_batch_position
              (Sample.with_batch_file Sample.silent_then_hello)
              "batch.json" (Sample.batch Sample.silent_then_hello) EdgeTTS_init
              [] [] [] (Sample.request [("text", PyStr "")]) [("text", PyStr "hello")]
              eq_refl eq_refl eq_refl eq_refl eq_refl eq_refl)
    as (rank & Hrank & Hatt & _ & Hsaved).
  exists rank. split; [exact Hrank|]. split; [exact Hatt|].
  exact (Hsaved (linux_always_succeeds _)).
Defined.

(** C7 at a batch of two requests of which the first has no text: one
    file on each path, and the HTTP loop leaves the engine and the event
    list alone at the skipped request. *)
Lemma empty_text_requests_are_skipped_witness :
  List.length
    (saved_files (events (process_json_input
                            (Sample.with_batch_file Sample.silent_then_hello)
                            "batch.json" EdgeTTS_init))) = 2 - 1 /\
  skip_lines (events (process_json_input
                        (Sample.with_batch_file Sample.silent_then_hello)
                        "batch.json" EdgeTTS_init))
  = [skip_line 0] /\
  List.length
    (saved_files (events (process_tts_json
                            (Sample.with_batch_file Sample.silent_then_hello)
                            (Sample.upload (Sample.batch Sample.silent_then_hello))
                            false EdgeTTS_init))) = 2 - 1 /\
  process_tts_request (Sample.with_batch_file Sample.silent_then_hello) []
    (0, Sample.request [("text", PyStr "")]) EdgeTTS_init
  = (Returns [], EdgeTTS_init, []).
Proof.
  destruct (empty_text_requests_are_skipped
              (Sample.with_batch_file Sample.silent_then_hello) "batch.json"
              (Sample.upload (Sample.batch Sample.silent_then_hello))
              "(the uploaded text)"
              (Sample.batch Sample.silent_then_hello) Sample.silent_then_hello
              EdgeTTS_init eq_refl)
    as (Hcli & Hhttp & Hturn).
  destruct (Hcli eq_refl eq_refl) as (_ & _ & _ & Hskip & Hok).
  destruct (Hok (linux_always_succeeds _)) as [_ Hcount].
  assert (Hne : Sample.silent_then_hello <> []) by discriminate.
  destruct (Hhttp eq_refl eq_refl Hne eq_refl) as (_ & _ & _ & Hok').
  destruct (Hok' (linux_always_succeeds _)) as [_ Hcount'].
  split; [exact (Hcount eq_refl)|]. split; [exact Hskip|].
  split; [exact (Hcount' eq_refl)|].
  exact (Hturn 0 (Sample.request [("text", PyStr "")]) [] EdgeTTS_init eq_refl eq_refl).
Defined.

(* ------------------------------------------------------------------ *)
(** ** Outside the hypotheses *)

(** Both entry points catch at their outermost boundary: whatever the
    input and the collaborators, they return. *)
Lemma process_json_input_never_raises (w : World) (path : string) (s : EdgeTTS) :
  exists b s' t, process_json_input w path s = (Returns b, s', t).
Proof.
  unfold process_json_input. apply try_except_any_returns.
  intros e s1. unfold_monad. eauto.
Qed.

Lemma process_tts_json_never_raises
    (w : World) (file : UploadFile) (return_first_only : bool) (s : EdgeTTS) :
  exists r s' t, process_tts_json w file return_first_only s = (Returns r, s', t).
Proof.
  unfold process_tts_json.
  match goal with
  | |- context [try_finally (try_except ?body any_Exception ?handler) ?fin] =>
      assert (H : forall s0, exists a s' t,
                 try_except body any_Exception handler s0 = (Returns a, s', t))
  end.
  { intros s0. apply try_except_any_returns. intros e s1. unfold_monad. eauto. }
  unfold bind at 1. unfold emit at 1. unfold try_finally.
  destruct (H s) as (a & s' & t & ->). unfold emit. eauto.
Qed.

(** *** Batches the loop does not get through *)

Lemma not_sliceable_slice (v : pyval) (n : nat) :
  sliceable v = false -> exists e, py_slice_to n v = Raises e.
Proof. destruct v; try discriminate; simpl; eauto. Qed.

(** A turn on anything else than a request raises: [get] on a value that
    is not an object, or the slice of a text that cannot be sliced. *)
Lemma json_request_raises (w : World) (i : nat) (request : pyval) (s : EdgeTTS) :
  is_request request = false ->
  exists e s' t, process_json_request w (i, request) s = (Raises e, s', t).
Proof.
  intros Hreq. unfold process_json_request.
  destruct request as [| | | | | |items]; try (simpl; unfold_monad; simpl; eauto; fail).
  unfold is_request, text_of in Hreq. simpl in Hreq. simpl py_get.
  rewrite !bind_call_returns.
  apply orb_false_iff in Hreq as [Htruthy Hslice].
  apply negb_false_iff in Htruthy. rewrite Htruthy. cbn [negb].
  destruct (not_sliceable_slice _ 30 Hslice) as (e & ->).
  unfold_monad. eauto.
Qed.

Lemma json_loop_raises (w : World) (l : list pyval) :
  forallb is_request l = false ->
  forall (start : nat) (s : EdgeTTS),
  exists e s' t,
    for_each (enumerate_from start l) (process_json_request w) s = (Raises e, s', t).
Proof.
  induction l as [|request l IH]; intros Hall start s; [discriminate Hall|].
  cbn [enumerate_from for_each]. simpl in Hall. unfold bind.
  destruct (is_request request) eqn:Hreq.
  - destruct (process_json_request w (start, request) s) as [[[[]|e] s1] t1]; [|eauto].
    destruct (IH Hall (S start) s1) as (e & s2 & t2 & ->). eauto.
  - destruct (json_request_raises w start request s Hreq) as (e & s1 & t1 & ->). eauto.
Qed.

(** X8. Read where the bridge gets through, [process_json_input] returns
    true exactly on the batches it iterates to the end: an object whose
    [requests], when given, can be iterated and holds only objects whose
    text is absent, falsy or can be sliced. On every other file that
    loads it returns false. *)
Lemma process_json_input_true_iff
    (w : World) (path : string) (data : pyval) (s : EdgeTTS) :
  json_load_path w path = Returns data ->
  bridge_passes w = true ->
  value (process_json_input w path s) = Returns true <-> batch_requests data <> None.
Proof.
  intros Hload Hbridge. split.
  - intros Hvalue Hnone. revert Hvalue.
    unfold process_json_input, batch_requests in *. unfold_monad. rewrite Hload. simpl.
    destruct data as [| | | | | |items]; try discriminate. simpl in *.
    destruct (py_iter match dict_lookup "requests" items with
                      | Some x => x | None => PyList [] end) as [l|e]; [|discriminate].
    simpl. destruct (forallb is_request l) eqn:Hall; [discriminate Hnone|].
    destruct (json_loop_raises w l Hall 0 EdgeTTS_init) as (e & s' & t & E).
    unfold enumerate. rewrite E. discriminate.
  - intros Hsome. destruct (batch_requests data) as [l|] eqn:Hbatch; [|contradiction].
    destruct (json_input_run w Hbridge path data l s Hload Hbatch) as (s' & t & -> & _).
    reflexivity.
Qed.

Lemma process_json_input_true_iff_witness :
  json_load_path (Sample.with_batch_file number_in_the_middle) "batch.json"
  = Returns (Sample.batch number_in_the_middle) /\
  bridge_passes (Sample.with_batch_file number_in_the_middle) = true /\
  batch_requests (Sample.batch number_in_the_middle) = None /\
  (value (process_json_input (Sample.with_batch_file number_in_the_middle)
            "batch.json" EdgeTTS_init) = Returns true
   <-> batch_requests (Sample.batch number_in_the_middle) <> None).
Proof.
  split; [reflexivity|]. split; [reflexivity|]. split; [reflexivity|].
  exact (process_json_input_true_iff (Sample.with_batch_file number_in_the_middle)
           "batch.json" (Sample.batch number_in_the_middle) EdgeTTS_init
           eq_refl eq_refl).
Defined.

(** A request whose text is a number is not one the loop gets through:
    slicing it raises, the batch stops there, and the answer is false, after the
    requests before it have been processed. *)
Example process_json_input_stops_at_a_number :
  value (process_json_input
           (Sample.with_batch_file
              [Sample.request [("text", PyStr "hello")];
               Sample.request [("text", PyInt 5)];
               Sample.request [("text", PyStr "again")]])
           "batch.json" EdgeTTS_init) = Returns false /\
  saved_files (events (process_json_input
           (Sample.with_batch_file
              [Sample.request [("text", PyStr "hello")];
               Sample.request [("text", PyInt 5)];
               Sample.request [("text", PyStr "again")]])
           "batch.json" EdgeTTS_init)) = [PyStr "output_1.mp3"].
Proof. split; reflexivity. Qed.

(** Where asyncio refuses with another text, [speak] raises, and the
    batch stops at its first request with text. *)
Example process_json_input_stops_when_the_bridge_raises :
  process_json_input
    (with_running_loop (Sample.with_batch_file Sample.greeting_then_hello)
       (Some "Cannot run the event loop while another loop is running"))
    "batch.json" EdgeTTS_init
  = (Returns false,
     mkEdgeTTS (PyStr "hi-IN-MadhurNeural") (PyStr "+0%") (PyStr "+0%"),
     [Print [Lit "Processing request #"; Lit "1"; Lit ": '";
             Val (PyStr "good morning"); Lit "...' with voice ";
             Val (PyStr "hi-IN-MadhurNeural")];
      NewEventLoop; LoopClose;
      Print [Lit "Error processing JSON input: ";
             Lit "Cannot run the event loop while another loop is running"]]).
Proof. reflexivity. Qed.

(** Two requests that name the same file write it twice. *)
Example same_name_is_written_twice :
  saved_files (events (process_json_input
           (Sample.with_batch_file
              [Sample.request [("text", PyStr "hello"); ("output_file", PyStr "a.mp3")];
               Sample.request [("text", PyStr "again"); ("output_file", PyStr "a.mp3")]])
           "batch.json" EdgeTTS_init))
  = [PyStr "a.mp3"; PyStr "a.mp3"].
Proof. reflexivity. Qed.

(** With [return_first_only] POST /tts goes through the first request
    alone, and answers with its file. *)
Example return_first_only_takes_the_first :
  value (process_tts_json (Sample.linux [])
           (Sample.upload (Sample.batch Sample.greeting_then_hello)) true EdgeTTS_init)
  = Returns (FileResponse "/srv/tts_output/greeting.mp3" "audio/mpeg" "greeting.mp3") /\
  saved_files (events (process_tts_json (Sample.linux [])
           (Sample.upload (Sample.batch Sample.greeting_then_hello)) true EdgeTTS_init))
  = [PyStr "/srv/tts_output/greeting.mp3"].
Proof. split; reflexivity. Qed.

(* ------------------------------------------------------------------ *)
(** ** The pipeline, call by call *)

(** Split a run on every collaborator answer and test it is stuck on. *)
Ltac run_cases :=
  repeat (simpl;
          match goal with
          | |- context [match ?x with Returns _ => _ | Raises _ => _ end] =>
              let E := fresh "Ecall" in destruct x eqn:E
          | |- context [if ?b then _ else _] =>
              let E := fresh "Etest" in destruct b eqn:E
          end);
  simpl.

Ltac unfold_pipeline :=
  unfold speak_async, translate_text, _generate_speech, play_audio, system,
    pipeline_request, synthesized_text, synthesis_ok, rate_sent, volume_sent in *;
  unfold_monad.

Lemma synthesis_requests_app (t1 t2 : list event) :
  synthesis_requests (t1 ++ t2) = synthesis_requests t1 ++ synthesis_requests t2.
Proof.
  induction t1 as [|ev t1 IH]; simpl; [reflexivity|].
  destruct ev; simpl; rewrite ?IH; reflexivity.
Qed.

Lemma commands_app (t1 t2 : list event) :
  commands (t1 ++ t2) = commands t1 ++ commands t2.
Proof.
  induction t1 as [|ev t1 IH]; simpl; [reflexivity|].
  destruct ev; simpl; rewrite ?IH; reflexivity.
Qed.

Lemma count_app (kind : event -> bool) (t1 t2 : list event) :
  count kind (t1 ++ t2) = count kind t1 + count kind t2.
Proof. unfold count. rewrite filter_app. apply length_app. Qed.

Lemma speak_async_requests
    (w : World) (text output_file translate_to_hindi : pyval) (s : EdgeTTS) :
  synthesis_requests (events (speak_async w text output_file translate_to_hindi s))
  = [pipeline_request w text output_file translate_to_hindi s].
Proof. unfold_pipeline. run_cases; try reflexivity; congruence. Qed.

Lemma speak_async_value
    (w : World) (text output_file translate_to_hindi : pyval) (s : EdgeTTS) :
  value (speak_async w text output_file translate_to_hindi s)
  = Returns (synthesis_ok w (pipeline_request w text output_file translate_to_hindi s)) /\
  engine (speak_async w text output_file translate_to_hindi s) = s.
Proof. unfold_pipeline. split; run_cases; try reflexivity; congruence. Qed.

(** X1. The Speech Adapter [_generate_speech] never raises and leaves the
    engine as it is. It asks the synthesis service once, with the text and
    file it is given and the voice of the engine; the rate and the volume
    of the engine reach the service only when the library has the setter.
    It returns true and the file is written exactly when the service
    answers; when the service throws, it prints the error and returns
    false. *)
Theorem speech_adapter_contract (w : World) (text output_file : pyval) (s : EdgeTTS) :
  value (_generate_speech w text output_file s)
  = Returns (synthesis_ok w (mkSpoken text (voice s) (rate_sent w s) (volume_sent w s)
                               output_file)) /\
  engine (_generate_speech w text output_file s) = s /\
  synthesis_requests (events (_generate_speech w text output_file s))
  = [mkSpoken text (voice s)
       (if has_set_rate w then Some (rate s) else None)
       (if has_set_volume w then Some (volume s) else None) output_file] /\
  saved_files (events (_generate_speech w text output_file s))
  = (if synthesis_ok w (mkSpoken text (voice s) (rate_sent w s) (volume_sent w s)
                          output_file)
     then [output_file] else []) /\
  (forall e : exn,
     edge_tts_save w text (voice s) (rate_sent w s) (volume_sent w s) output_file
     = Raises e ->
     In (Print [Lit "Error generating speech: "; Lit (exn_str e)])
        (events (_generate_speech w text output_file s))).
Proof.
  unfold_pipeline. simpl.
  destruct (edge_tts_save w text (voice s) _ _ output_file) as [u|e] eqn:E; simpl.
  - repeat split; auto. intros e H. discriminate H.
  - repeat split; auto. intros e' H. injection H as <-. auto.
Qed.

(** X2. [speak_async] asks the synthesis service exactly once, whatever
    happens: with the translation when the flag is set and the translation
    service answers, with the text as given when the flag is set and the
    service throws, and with the text as given, the translation service
    not being called at all, when the flag is not set. The target language
    is always hi. *)
Theorem speak_async_synthesizes_once
    (w : World) (text output_file translate_to_hindi : pyval) (s : EdgeTTS) :
  synthesis_requests (events (speak_async w text output_file translate_to_hindi s))
  = [mkSpoken
       (if truthy translate_to_hindi then
          match translator_translate w text "hi" with
          | Returns translated => PyStr translated
          | Raises _ => text
          end
        else text)
       (voice s) (rate_sent w s) (volume_sent w s) output_file] /\
  translations (events (speak_async w text output_file translate_to_hindi s))
  = (if truthy translate_to_hindi then [(text, "hi")] else []).
Proof.
  split; [apply speak_async_requests|].
  unfold_pipeline. run_cases; try reflexivity; congruence.
Qed.

(** X3. The answer of [speak_async] is the outcome of synthesis and
    nothing else: true exactly when the service wrote the file. What
    [play_audio] returns is dropped, so a playback that fails, or a
    platform without a player, still gives true; and when synthesis fails
    no command is run and no handler is opened. Two worlds with the same
    translation and synthesis services give the same answer, whatever
    their platform, shell and generic handler. *)
Theorem speak_async_answer_is_synthesis
    (w : World) (text output_file translate_to_hindi : pyval) (s : EdgeTTS) :
  value (speak_async w text output_file translate_to_hindi s)
  = Returns (synthesis_ok w (pipeline_request w text output_file translate_to_hindi s)) /\
  engine (speak_async w text output_file translate_to_hindi s) = s /\
  (synthesis_ok w (pipeline_request w text output_file translate_to_hindi s) = false ->
   commands (events (speak_async w text output_file translate_to_hindi s)) = [] /\
   count is_WebbrowserOpen (events (speak_async w text output_file translate_to_hindi s))
   = 0) /\
  (forall w' : World,
     translator_translate w' = translator_translate w ->
     edge_tts_save w' = edge_tts_save w ->
     has_set_rate w' = has_set_rate w ->
     has_set_volume w' = has_set_volume w ->
     value (speak_async w' text output_file translate_to_hindi s)
     = value (speak_async w text output_file translate_to_hindi s)).
Proof.
  split; [apply speak_async_value|]. split; [apply speak_async_value|]. split.
  - unfold_pipeline. unfold count. run_cases; intros H; try discriminate H; auto; congruence.
  - intros w' Ht Hs Hr Hv.
    rewrite (proj1 (speak_async_value w' _ _ _ _)), (proj1 (speak_async_value w _ _ _ _)).
    unfold pipeline_request, synthesis_ok, synthesized_text, rate_sent, volume_sent.
    simpl. rewrite Ht, Hs, Hr, Hv. reflexivity.
Qed.

(** The answer is true on a platform without a player, and where the
    shell and the generic handler both throw. *)
Example speak_async_true_without_playback :
  value (speak_async Sample.jython (PyStr "hello") (PyStr "output.mp3") (PyBool false)
           EdgeTTS_init) = Returns true /\
  value (play_audio Sample.jython (PyStr "output.mp3") EdgeTTS_init) = Returns false /\
  value (speak_async Sample.mute (PyStr "hello") (PyStr "output.mp3") (PyBool false)
           EdgeTTS_init) = Returns true /\
  value (play_audio Sample.mute (PyStr "output.mp3") EdgeTTS_init) = Returns false.
Proof. repeat split. Qed.

(* ------------------------------------------------------------------ *)
(** ** The bridge and the player, call by call *)

Lemma speak_async_pipeline_events
    (w : World) (text output_file translate_to_hindi : pyval) (s : EdgeTTS) :
  forallb is_pipeline_event (events (speak_async w text output_file translate_to_hindi s))
  = true.
Proof. unfold_pipeline. run_cases; reflexivity. Qed.

Lemma count_none (kind : event -> bool) (t : list event) :
  (forall ev, is_pipeline_event ev = true -> kind ev = false) ->
  forallb is_pipeline_event t = true ->
  count kind t = 0.
Proof.
  intros Hkind. unfold count. induction t as [|ev t IH]; simpl; [reflexivity|].
  intros H. apply andb_true_iff in H as [Hev Ht].
  rewrite (Hkind ev Hev). apply IH. exact Ht.
Qed.

Ltac not_a_pipeline_event :=
  let ev := fresh "ev" in intros ev; destruct ev; simpl; intros; congruence.

(** X4. When asyncio refuses to run the loop with a RuntimeError whose
    text does not contain the words already running, [speak] raises that
    same error to its caller: the pipeline is not run, nothing is asked of
    synthesis, no thread is started, and the loop it made is closed. *)
Theorem speak_reraises_other_runtime_errors
    (w : World) (text output_file translate_to_hindi : pyval) (msg : string) (s : EdgeTTS) :
  running_loop w = Some msg ->
  str_contains "already running" msg = false ->
  value (speak w text output_file translate_to_hindi s) = Raises (mkExn RuntimeError msg) /\
  engine (speak w text output_file translate_to_hindi s) = s /\
  events (speak w text output_file translate_to_hindi s) = [NewEventLoop; LoopClose].
Proof.
  intros Hloop Hmsg.
  rewrite (speak_other_runtime_error w text output_file translate_to_hindi msg s Hloop Hmsg).
  repeat split.
Qed.

Lemma speak_reraises_other_runtime_errors_witness :
  str_contains "already running"
    "Cannot run the event loop while another loop is running" = false /\
  value (speak (with_running_loop (Sample.linux [])
                  (Some "Cannot run the event loop while another loop is running"))
           (PyStr "hello") (PyStr "output.mp3") (PyBool false) EdgeTTS_init)
  = Raises (mkExn RuntimeError "Cannot run the event loop while another loop is running") /\
  events (speak (with_running_loop (Sample.linux [])
                   (Some "Cannot run the event loop while another loop is running"))
            (PyStr "hello") (PyStr "output.mp3") (PyBool false) EdgeTTS_init)
  = [NewEventLoop; LoopClose].
Proof.
  split; [reflexivity|].
  destruct (speak_reraises_other_runtime_errors
              (with_running_loop (Sample.linux [])
                 (Some "Cannot run the event loop while another loop is running"))
              (PyStr "hello") (PyStr "output.mp3") (PyBool false)
              "Cannot run the event loop while another loop is running" EdgeTTS_init
              eq_refl eq_refl) as (Hvalue & _ & Hevents).
  split; [exact Hvalue|exact Hevents].
Defined.

(** X5. Every run of [speak] closes each event loop it makes and joins
    each thread it starts, on all three ways out (the plain call, the
    worker thread, the error raised again); it starts at most one thread,
    and it never sleeps. *)
Theorem speak_closes_its_loops
    (w : World) (text output_file translate_to_hindi : pyval) (s : EdgeTTS) :
  count is_NewEventLoop (events (speak w text output_file translate_to_hindi s))
  = count is_LoopClose (events (speak w text output_file translate_to_hindi s)) /\
  count is_ThreadStart (events (speak w text output_file translate_to_hindi s))
  = count is_ThreadJoin (events (speak w text output_file translate_to_hindi s)) /\
  count is_ThreadStart (events (speak w text output_file translate_to_hindi s)) <= 1 /\
  count is_Sleep (events (speak w text output_file translate_to_hindi s)) = 0.
Proof.
  pose proof (speak_async_pipeline_events w text output_file translate_to_hindi s) as Hp.
  assert (Hnew := count_none is_NewEventLoop _ ltac:(not_a_pipeline_event) Hp).
  assert (Hclose := count_none is_LoopClose _ ltac:(not_a_pipeline_event) Hp).
  assert (Hstart := count_none is_ThreadStart _ ltac:(not_a_pipeline_event) Hp).
  assert (Hjoin := count_none is_ThreadJoin _ ltac:(not_a_pipeline_event) Hp).
  assert (Hsleep := count_none is_Sleep _ ltac:(not_a_pipeline_event) Hp).
  destruct (running_loop w) as [msg|] eqn:Hloop.
  - destruct (str_contains "already running" msg) eqn:Hmsg.
    + rewrite (speak_inside_running_loop w _ _ _ msg s Hloop Hmsg).
      unfold events in *. cbn [snd].
      rewrite !count_app, Hnew, Hclose, Hstart, Hjoin, Hsleep.
      repeat split; auto.
    + rewrite (speak_other_runtime_error w _ _ _ msg s Hloop Hmsg).
      repeat split; auto.
  - rewrite (speak_plain_call w _ _ _ s Hloop).
    unfold events in *. cbn [snd].
    rewrite !count_app, Hnew, Hclose, Hstart, Hjoin, Hsleep.
    repeat split; auto.
Qed.

(** X6. [play_audio] runs one shell command on a platform it has a branch
    for and none elsewhere, always with the path between double quotes as
    its only argument. The exit status of the command is not looked at:
    whenever the command comes back, with any status, [play_audio] returns
    true and the generic handler is not opened. *)
Theorem play_audio_ignores_exit_status (w : World) (file_path : pyval) (s : EdgeTTS) :
  List.length (commands (events (play_audio w file_path s)))
  = (if supported_platform w then 1 else 0) /\
  (forall cmd : fstring,
     In cmd (commands (events (play_audio w file_path s))) ->
     exists prog : string, cmd = play_command prog file_path) /\
  (forall (cmd : fstring) (status : Z),
     In cmd (commands (events (play_audio w file_path s))) ->
     os_system w cmd = Returns status ->
     play_audio w file_path s = (Returns true, s, [System cmd])).
Proof.
  unfold play_audio, supported_platform, system. unfold_monad.
  destruct (os_name w =? "nt") eqn:Ent; simpl;
    [|destruct (os_name w =? "posix") eqn:Eposix; simpl;
      [destruct (platform_system w =? "Darwin") eqn:Edarwin; simpl|]].
  all: try match goal with
       | |- context [os_system ?w0 ?c] =>
           destruct (os_system w0 c) as [z|e0] eqn:Esys; simpl
       end.
  all: try match goal with
       | |- context [webbrowser_open ?w0 ?p] =>
           destruct (webbrowser_open w0 p) as [ok|e1] eqn:Eweb; simpl
       end.
  all: repeat split; intros.
  all: repeat match goal with
       | H : _ \/ _ |- _ => destruct H
       | H : False |- _ => destruct H
       end; subst.
  all: try (eexists; reflexivity).
  all: try reflexivity.
  all: congruence.
Qed.

(** A player that exits with an error status is reported as a success. *)
Example play_audio_true_on_failed_command :
  play_audio (Sample.host "posix" (Returns 256%Z) (Returns true) (Returns "namaste")
                (Returns tt) [])
    (PyStr "missing.mp3") EdgeTTS_init
  = (Returns true, EdgeTTS_init, [System (play_command "aplay" (PyStr "missing.mp3"))]).
Proof. reflexivity. Qed.

(* ------------------------------------------------------------------ *)
(** ** The Batch Processor, request by request *)

Lemma speak_through_bridge
    (w : World) (text output_file translate_to_hindi : pyval) (s : EdgeTTS) :
  bridge_passes w = true ->
  value (speak w text output_file translate_to_hindi s)
  = Returns (synthesis_ok w (pipeline_request w text output_file translate_to_hindi s)) /\
  engine (speak w text output_file translate_to_hindi s) = s /\
  synthesis_requests (events (speak w text output_file translate_to_hindi s))
  = [pipeline_request w text output_file translate_to_hindi s] /\
  count is_Sleep (events (speak w text output_file translate_to_hindi s)) = 0.
Proof.
  intros Hbridge.
  pose proof (speak_async_pipeline_events w text output_file translate_to_hindi s) as Hp.
  assert (Hsleep := count_none is_Sleep _ ltac:(not_a_pipeline_event) Hp).
  pose proof (speak_async_requests w text output_file translate_to_hindi s) as Hreq.
  destruct (speak_async_value w text output_file translate_to_hindi s) as [Hv _].
  unfold bridge_passes in Hbridge.
  destruct (running_loop w) as [msg|] eqn:Hloop.
  - rewrite (speak_inside_running_loop w _ _ _ msg s Hloop Hbridge).
    unfold events, value, engine in *. cbn [fst snd].
    rewrite !synthesis_requests_app, !count_app, Hreq, Hsleep, Hv. repeat split.
  - rewrite (speak_plain_call w _ _ _ s Hloop).
    unfold events, value, engine in *. cbn [fst snd].
    rewrite !synthesis_requests_app, !count_app, Hreq, Hsleep, Hv. repeat split.
Qed.

(** A turn of the loop does not look at the engine it finds: it sets the
    voice, the rate and the volume before it speaks. *)
Lemma json_request_forgets_engine (w : World) (ir : nat * pyval) (s s0 : EdgeTTS) :
  value (process_json_request w ir s) = value (process_json_request w ir s0) /\
  events (process_json_request w ir s) = events (process_json_request w ir s0).
Proof.
  destruct ir as [i request]. unfold process_json_request.
  destruct request as [| | | | | |items];
    try (unfold_monad; simpl; split; reflexivity).
  simpl py_get. rewrite !bind_call_returns.
  destruct (negb (truthy match dict_lookup "text" items with
                         | Some x => x | None => PyStr "" end)).
  - unfold_monad. split; reflexivity.
  - destruct (py_slice_to 30 match dict_lookup "text" items with
                             | Some x => x | None => PyStr "" end) as [head|e].
    + rewrite !bind_call_returns.
      unfold set_voice, set_rate, set_volume. unfold_monad. simpl.
      match goal with
      | |- context [speak ?w0 ?a ?b ?c ?s1] =>
          destruct (speak w0 a b c s1) as [[[ok|e] s2] t]
      end; split; reflexivity.
    + unfold_monad. split; reflexivity.
Qed.

(** The run of a turn: a skip line, or the line of the request, the run
    of [speak] on the engine of the request, and a sleep of one second. *)
Lemma json_request_events (w : World) (i : nat) (request : pyval) (s : EdgeTTS) :
  is_request request = true ->
  bridge_passes w = true ->
  value (process_json_request w (i, request) s) = Returns tt /\
  (has_text request = false ->
     events (process_json_request w (i, request) s) = [skip_line i]) /\
  (has_text request = true ->
     exists line,
       events (process_json_request w (i, request) s)
       = Print line
         :: events (speak w (text_of request) (output_file_of i request)
                      (field_of request "translate_to_hindi" (PyBool false))
                      (request_engine request))
         ++ [Sleep 1]).
Proof.
  intros Hreq Hbridge.
  destruct request as [| | | | | |items]; try discriminate Hreq.
  unfold is_request, has_text, request_engine, text_of, output_file_of, field_of in *.
  simpl in Hreq |- *.
  unfold process_json_request. simpl py_get. rewrite !bind_call_returns.
  destruct (truthy match dict_lookup "text" items with
                   | Some x => x | None => PyStr "" end) eqn:Etruthy; cbn [negb].
  - simpl in Hreq. destruct (sliceable_slice _ 30 Hreq) as (head & ->).
    rewrite !bind_call_returns.
    unfold set_voice, set_rate, set_volume. unfold_monad. simpl.
    match goal with
    | |- context [speak ?w0 ?a ?b ?c ?s1] =>
        destruct (speak_through_bridge w0 a b c s1 Hbridge) as (Hv & _);
        destruct (speak w0 a b c s1) as [[[ok|e] s2] t]
    end; [|discriminate Hv].
    simpl. split; [reflexivity|]. split; [discriminate|].
    intros _. eexists. reflexivity.
  - unfold_monad. simpl. split; [reflexivity|]. split; [reflexivity|discriminate].
Qed.

(** A loop whose turns all return, each with a run of its own, runs the
    turns one after the other. *)
Lemma for_each_concat {A : Type} (l : list A) (body : A -> M unit) (s0 : EdgeTTS) :
  (forall x s, In x l ->
     value (body x s) = Returns tt /\ events (body x s) = events (body x s0)) ->
  forall s,
    value (for_each l body s) = Returns tt /\
    events (for_each l body s) = List.concat (map (fun x => events (body x s0)) l).
Proof.
  induction l as [|x l IH]; intros Hbody s; [split; reflexivity|].
  destruct (Hbody x s (or_introl eq_refl)) as [Hv He].
  cbn [for_each map List.concat]. unfold bind.
  destruct (body x s) as [[r s1] t1]. unfold value, events in Hv, He. simpl in Hv, He.
  subst r.
  destruct (IH (fun y s' Hy => Hbody y s' (or_intror Hy)) s1) as [Hv2 He2].
  destruct (for_each l body s1) as [[r2 s2] t2].
  unfold value, events in *. simpl in *. subst. split; reflexivity.
Qed.

Lemma in_enumerate_from {A : Type} (l : list A) (start i : nat) (x : A) :
  In (i, x) (enumerate_from start l) -> In x l.
Proof.
  revert start. induction l as [|y l IH]; intros start H; [contradiction|].
  destruct H as [H|H]; [injection H as _ <-; left; reflexivity|right; eauto].
Qed.





Section BatchRuns.

Variable w : World.
Hypothesis Hbridge : bridge_passes w = true.

Variables (path : string) (data : pyval) (l : list pyval).
Hypothesis Hload : json_load_path w path = Returns data.
Hypothesis Hbatch : batch_requests data = Some l.

Lemma json_input_concat (s : EdgeTTS) :
  events (process_json_input w path s)
  = List.concat (map (fun ir => events (process_json_request w ir EdgeTTS_init)) (enumerate l)).
Proof.
  destruct (json_input_run w Hbridge path data l s Hload Hbatch) as (s' & t & -> & E).
  destruct (batch_requests_get data l Hbatch) as (_ & _ & _ & Hall).
  destruct (for_each_concat (enumerate l) (process_json_request w) EdgeTTS_init) with
    (s := EdgeTTS_init) as [_ He].
  - intros [i request] s1 Hin. split.
    + apply json_request_events; [|exact Hbridge].
      apply in_enumerate_from in Hin.
      rewrite forallb_forall in Hall. exact (Hall request Hin).
    + apply json_request_forgets_engine.
  - rewrite E in He. exact He.
Qed.


End BatchRuns.

(** X7. [process_json_input] never raises, whatever the path, the file and
    the collaborators: it returns a boolean. When it returns false, the
    last thing it did was to print the error it caught; what was done
    before the error stays done. *)
Theorem process_json_input_catches_everything (w : World) (path : string) (s : EdgeTTS) :
  exists b : bool,
    value (process_json_input w path s) = Returns b /\
    (b = false ->
     exists (e : exn) (before : list event),
       events (process_json_input w path s)
       = before ++ [Print [Lit "Error processing JSON input: "; Lit (exn_str e)]]).
Proof.
  unfold process_json_input. unfold_monad.
  destruct (json_load_path w path) as [data|e]; simpl.
  2: { exists false. split; [reflexivity|]. intros _. exists e, []. reflexivity. }
  destruct (py_get data "requests" (PyList [])) as [requests|e]; simpl.
  2: { exists false. split; [reflexivity|]. intros _. exists e, []. reflexivity. }
  destruct (py_iter requests) as [items|e]; simpl.
  2: { exists false. split; [reflexivity|]. intros _. exists e, []. reflexivity. }
  destruct (for_each (enumerate items) (process_json_request w) EdgeTTS_init)
    as [[[u|e] s1] t]; simpl.
  - exists true. split; [reflexivity|]. discriminate.
  - exists false. split; [reflexivity|]. intros _. exists e, t. reflexivity.
Qed.

(** X9. Read where the bridge gets through, the run of [process_json_input]
    on a batch it iterates is the runs of its requests one after the other,
    in batch order, and the run of a request does not depend on the engine
    state it starts from: each turn sets voice, rate and volume itself, so
    nothing of a request's configuration reaches the next one. *)
Theorem batch_run_is_request_by_request
    (w : World) (path : string) (data : pyval) (l : list pyval) (s : EdgeTTS) :
  json_load_path w path = Returns data ->
  batch_requests data = Some l ->
  bridge_passes w = true ->
  events (process_json_input w path s)
  = List.concat (map (fun ir => events (process_json_request w ir EdgeTTS_init))
                     (enumerate l)) /\
  forall (ir : nat * pyval) (s1 s2 : EdgeTTS),
    value (process_json_request w ir s1) = value (process_json_request w ir s2) /\
    events (process_json_request w ir s1) = events (process_json_request w ir s2).
Proof.
  intros Hload Hbatch Hbridge. split.
  - exact (json_input_concat w Hbridge path data l Hload Hbatch s).
  - intros ir s1 s2. apply json_request_forgets_engine.
Qed.



(* ------------------------------------------------------------------ *)
(** ** POST /tts, request by request *)

(** [generate_speech] on a text that can be sliced: the engine is set to
    the configuration given, the pipeline runs on it, and its answer is
    printed and returned. *)
Lemma http_generate_speech_exact
    (w : World) (text voice rate volume output_file translate_to_hindi : pyval) (s : EdgeTTS) :
  sliceable text = true ->
  exists first last,
    generate_speech w text voice rate volume output_file translate_to_hindi s
    = (Returns (synthesis_ok w (pipeline_request w text output_file translate_to_hindi
                                  (mkEdgeTTS voice rate volume))),
       mkEdgeTTS voice rate volume,
       Print first
       :: events (speak_async w text output_file translate_to_hindi
                    (mkEdgeTTS voice rate volume))
       ++ [Print last]).
Proof.
  intros Hs. destruct (sliceable_slice text 30 Hs) as (head & Hhead).
  unfold generate_speech, set_voice, set_rate, set_volume. unfold_monad.
  rewrite Hhead. simpl.
  destruct (speak_async_value w text output_file translate_to_hindi
              (mkEdgeTTS voice rate volume)) as [Hv He].
  destruct (speak_async w text output_file translate_to_hindi (mkEdgeTTS voice rate volume))
    as [[[ok|e] s1] t]; unfold value, engine in Hv, He; simpl in Hv, He;
    [|discriminate Hv].
  injection Hv as ->. subst s1. simpl.
  destruct (synthesis_ok w _); simpl; do 2 eexists; reflexivity.
Qed.

(** One turn of the loop of POST /tts, exactly. *)
Lemma tts_request_exact
    (w : World) (i : nat) (request : pyval) (acc : list string) (s : EdgeTTS) :
  is_upload_request request = true ->
  exists s' t,
    process_tts_request w acc (i, request) s
    = (Returns (acc ++ paths_of w (filter (spoken_ok w) [(i, request)])), s', t) /\
    synthesis_requests t = map (upload_spoken w) (with_text_from i [request]) /\
    saved_files t = map PyStr (paths_of w (filter (spoken_ok w) [(i, request)])) /\
    count is_Sleep t = 0 /\
    (has_text request = true -> s' = request_engine request) /\
    (has_text request = false -> s' = s).
Proof.
  intros Hup. destruct (is_upload_request_shape request Hup)
    as (_ & items & -> & Hslice & Hname).
  destruct (Hname i) as (name & Ename).
  unfold with_text_from, spoken_ok, upload_spoken, paths_of, output_path_of.
  cbn [enumerate_from filter map fst snd]. rewrite Ename.
  unfold has_text, request_engine, text_of, output_file_of, field_of,
    pipeline_request in *.
  simpl in Hslice, Ename |- *. rewrite ?Ename. cbn [path_join].
  unfold process_tts_request. simpl py_get. rewrite bind_call_returns.
  destruct (truthy match dict_lookup "text" items with
                   | Some x => x | None => PyStr "" end) eqn:Etruthy; cbn [negb andb].
  - rewrite !bind_call_returns. rewrite ?Ename. cbn [path_join].
    rewrite ?bind_call_returns.
    match goal with
    | |- context [generate_speech w ?a ?b ?c ?d ?e ?f] =>
        destruct (http_generate_speech_exact w a b c d e f s (Hslice eq_refl))
          as (first & last & E);
        pose proof (speak_async_requests w a e f (mkEdgeTTS b c d)) as Hreq;
        pose proof (speak_async_run w a e f (mkEdgeTTS b c d)) as Hrun;
        pose proof (speak_async_value w a e f (mkEdgeTTS b c d)) as Hval;
        pose proof (speak_async_pipeline_events w a e f (mkEdgeTTS b c d)) as Hkind
    end.
    rewrite (bind_runs _ _ _ _ _ _ E).
    destruct Hrun as (b0 & t0 & Hrun & Hsaved & _).
    destruct Hval as [Hval _]. rewrite Hrun in Hval, Hreq, Hkind |- *.
    unfold value, engine, events in *. simpl in Hval, Hreq, Hkind |- *.
    injection Hval as Hval.
    assert (Hsleep := count_none is_Sleep _ ltac:(not_a_pipeline_event) Hkind).
    do 2 eexists. split.
    + destruct (synthesis_ok w _); simpl; rewrite ?app_nil_r, ?Ename; reflexivity.
    + change (Print first :: t0 ++ [Print last]) with ([Print first] ++ t0 ++ [Print last]).
      rewrite !synthesis_requests_app, !saved_files_app, !count_app.
      rewrite Hreq, Hsaved, Hsleep, Hval.
      destruct (synthesis_ok w _); simpl; rewrite ?app_nil_r, ?Ename;
        repeat split; auto; discriminate.
  - do 2 eexists. unfold ret. rewrite app_nil_r.
    repeat split; auto. discriminate.
Qed.

(** The loop of POST /tts, exactly. *)
Lemma tts_loop_exact (w : World) (l : list pyval) :
  forallb is_upload_request l = true ->
  forall (start : nat) (acc : list string) (s : EdgeTTS),
  exists s' t,
    for_fold (enumerate_from start l) acc (process_tts_request w) s
    = (Returns (acc ++ paths_of w (filter (spoken_ok w) (enumerate_from start l))), s', t) /\
    synthesis_requests t = map (upload_spoken w) (with_text_from start l) /\
    saved_files t = map PyStr (paths_of w (filter (spoken_ok w) (enumerate_from start l))) /\
    count is_Sleep t = 0.
Proof.
  intros Hall. induction l as [|request l IH]; intros start acc s.
  - do 2 eexists. simpl. unfold ret. rewrite app_nil_r. repeat split.
  - simpl in Hall. apply andb_true_iff in Hall as [Hreq Hall].
    destruct (tts_request_exact w start request acc s Hreq)
      as (s1 & t1 & E1 & R1 & S1 & Z1 & _).
    destruct (IH Hall (S start) (acc ++ paths_of w (filter (spoken_ok w) [(start, request)])) s1)
      as (s2 & t2 & E2 & R2 & S2 & Z2).
    cbn [enumerate_from for_fold]. rewrite (bind_runs _ _ _ _ _ _ E1), E2.
    do 2 eexists. split; [|split; [|split]].
    + unfold value, engine, events. cbn [fst snd].
      rewrite <- app_assoc. unfold paths_of. rewrite <- map_app.
      cbn [filter]. destruct (spoken_ok w (start, request)); reflexivity.
    + unfold events. cbn [snd]. rewrite synthesis_requests_app, R1, R2.
      unfold with_text_from. cbn [enumerate_from filter snd].
      destruct (has_text request); reflexivity.
    + unfold events. cbn [snd]. rewrite saved_files_app, S1, S2.
      unfold paths_of. rewrite <- !map_app. cbn [filter].
      destruct (spoken_ok w (start, request)); reflexivity.
    + unfold events. cbn [snd]. rewrite count_app, Z1, Z2. reflexivity.
Qed.

Lemma upload_batch_shape (data : pyval) (l : list pyval) :
  upload_batch data = Some l ->
  l <> [] /\
  py_in "requests" data = Returns true /\
  py_getitem data "requests" = Returns (PyList l).
Proof.
  unfold upload_batch, py_in, py_getitem.
  destruct data as [| | | | | |items]; try discriminate.
  destruct (dict_lookup "requests" items) as [[| | | | |[|x l']|]|]; try discriminate.
  intros [= <-]. repeat split. discriminate.
Qed.

(** POST /tts on an upload of the accepted shape whose requests to
    process can all be placed. *)
Lemma tts_json_exact (w : World) (file : UploadFile) (return_first_only : bool)
    (content : string) (data : pyval) (l : list pyval) (s : EdgeTTS) :
  upload_text file = Returns content ->
  upload_json file = Returns data ->
  upload_batch data = Some l ->
  forallb is_upload_request (to_process return_first_only l) = true ->
  exists s' t,
    process_tts_json w file return_first_only s
    = (Returns (respond w return_first_only (upload_files w return_first_only l)), s',
       [Mkdtemp; WriteUpload (os_path_join w (mkdtemp w) "input.json");
        Print [Lit "Received JSON content: "; Lit content]]
       ++ t ++ [Rmtree (mkdtemp w)]) /\
    synthesis_requests t
    = map (upload_spoken w) (with_text_from 0 (to_process return_first_only l)) /\
    saved_files t = map PyStr (upload_files w return_first_only l) /\
    count is_Sleep t = 0.
Proof.
  intros Htext Hjson Hbatch Hall.
  destruct (upload_batch_shape data l Hbatch) as (Hne & Hin & Hget).
  destruct (tts_loop_exact w _ Hall 0 [] s) as (s' & t & E & R & S & Z).
  simpl in E. exists s', t. split; [|auto].
  unfold process_tts_json. unfold_monad. rewrite Htext, Hjson. simpl.
  rewrite Hin, Hget. simpl.
  destruct l as [|x l]; [contradiction|]. simpl.
  unfold upload_files, to_process, enumerate in *.
  destruct return_first_only; simpl; simpl in E |- *;
    rewrite E; simpl; rewrite ?app_nil_r; reflexivity.
Qed.

(* ------------------------------------------------------------------ *)
(** ** POST /tts on any upload *)

Lemma generate_speech_handler_events
    (w : World) (text voice rate volume output_file translate_to_hindi : pyval) (s : EdgeTTS) :
  forallb is_handler_event
    (events (generate_speech w text voice rate volume output_file translate_to_hindi s))
  = true.
Proof.
  unfold generate_speech, set_voice, set_rate, set_volume. unfold_pipeline.
  run_cases; reflexivity.
Qed.

Lemma tts_request_handler_events
    (w : World) (acc : list string) (ir : nat * pyval) (s : EdgeTTS) :
  forallb is_handler_event (events (process_tts_request w acc ir s)) = true.
Proof.
  destruct ir as [i request]. unfold process_tts_request.
  destruct (py_get request "text" (PyStr "")) as [text|e];
    [rewrite bind_call_returns|reflexivity].
  destruct (negb (truthy text)); [reflexivity|].
  destruct (py_get request "voice" (PyStr "hi-IN-MadhurNeural")) as [voice|e];
    [rewrite bind_call_returns|reflexivity].
  destruct (py_get request "rate" (PyStr "+0%")) as [rate|e];
    [rewrite bind_call_returns|reflexivity].
  destruct (py_get request "volume" (PyStr "+0%")) as [volume|e];
    [rewrite bind_call_returns|reflexivity].
  destruct (py_get request "translate_to_hindi" (PyBool false)) as [tr|e];
    [rewrite bind_call_returns|reflexivity].
  destruct (py_get request "output_file" (PyStr (default_output_file i))) as [name|e];
    [rewrite bind_call_returns|reflexivity].
  destruct (path_join w (OUTPUT_DIR w) name) as [output_path|e];
    [rewrite bind_call_returns|reflexivity].
  pose proof (generate_speech_handler_events w text voice rate volume (PyStr output_path)
                tr s) as Hk.
  unfold bind, events in *.
  destruct (generate_speech w text voice rate volume (PyStr output_path) tr s)
    as [[[ok|e] s1] t]; simpl in *; [|exact Hk].
  destruct ok; simpl; rewrite app_nil_r; exact Hk.
Qed.

Lemma for_fold_handler_events {A S : Type} (l : list A) (body : S -> A -> M S) :
  (forall acc x s, forallb is_handler_event (events (body acc x s)) = true) ->
  forall acc s, forallb is_handler_event (events (for_fold l acc body s)) = true.
Proof.
  intros Hbody. induction l as [|x l IH]; intros acc s; [reflexivity|].
  cbn [for_fold]. unfold bind, events.
  pose proof (Hbody acc x s) as H1. unfold events in H1.
  destruct (body acc x s) as [[[acc'|e] s1] t1]; simpl in *; [|exact H1].
  pose proof (IH acc' s1) as H2. unfold events in H2.
  destruct (for_fold l acc' body s1) as [[r s2] t2]. simpl in *.
  rewrite forallb_app, H1, H2. reflexivity.
Qed.

Lemma handler_events_count (kind : event -> bool) (t : list event) :
  (forall ev, is_handler_event ev = true -> kind ev = false) ->
  forallb is_handler_event t = true ->
  count kind t = 0.
Proof.
  intros Hkind. unfold count. induction t as [|ev t IH]; simpl; [reflexivity|].
  intros H. apply andb_true_iff in H as [Hev Ht].
  rewrite (Hkind ev Hev). apply IH. exact Ht.
Qed.

Ltac concrete_mid :=
  simpl;
  match goal with
  | |- exists r s' mid, (Returns ?R, ?S, Mkdtemp :: ?t) = _ /\ _ =>
      exists R, S, (removelast t); split; reflexivity
  end.

Ltac handler_loop w s :=
  match goal with
  | |- context [py_iter ?d] =>
      let items := fresh "items" in
      let e := fresh "e" in
      let Hk := fresh "Hk" in
      let files := fresh "files" in
      let s1 := fresh "s" in
      let t := fresh "t" in
      destruct (py_iter d) as [items|e]; simpl; [|concrete_mid];
      pose proof (for_fold_handler_events (enumerate items) (process_tts_request w)
                    (tts_request_handler_events w) [] s) as Hk;
      unfold events in Hk;
      destruct (for_fold (enumerate items) [] (process_tts_request w) s)
        as [[[files|e] s1] t]; simpl in *;
      [ eexists _, _, (_ :: _ :: t);
        split; [rewrite ?app_nil_r; reflexivity | simpl; exact Hk]
      | eexists _, _, (_ :: _ :: t ++ [PrintTraceback]);
        split; [reflexivity | simpl; rewrite forallb_app, Hk; reflexivity] ]
  end.

(** The body of the handler, between the two ends. *)
Lemma tts_json_body (w : World) (file : UploadFile) (return_first_only : bool) (s : EdgeTTS) :
  exists r s' mid,
    process_tts_json w file return_first_only s
    = (Returns r, s', [Mkdtemp] ++ mid ++ [Rmtree (mkdtemp w)]) /\
    forallb is_handler_event mid = true.
Proof.
  unfold process_tts_json. unfold_monad.
  destruct (upload_text file) as [content|e]; simpl; [|concrete_mid].
  destruct (upload_json file) as [data|e]; simpl.
  2: { destruct (isinstance_JSONDecodeError e); simpl; concrete_mid. }
  destruct (py_in "requests" data) as [[|]|e]; simpl;
    try (concrete_mid).
  destruct (py_getitem data "requests") as [requests|e]; simpl;
    [|concrete_mid].
  destruct (isinstance_list requests); simpl; [|concrete_mid].
  destruct (truthy requests); simpl; [|concrete_mid].
  destruct return_first_only; simpl.
  - destruct (py_slice_to 1 requests) as [to_do|e]; simpl; [|concrete_mid].
    handler_loop w s.
  - handler_loop w s.
Qed.

(** X12. POST /tts answers every upload with a response and never raises,
    whatever the file holds and whatever the collaborators do; it makes
    its temporary directory first and removes it last, exactly once: no
    step in between removes a directory. *)
Theorem tts_always_answers_and_cleans_up
    (w : World) (file : UploadFile) (return_first_only : bool) (s : EdgeTTS) :
  exists (r : response) (s' : EdgeTTS) (mid : list event),
    process_tts_json w file return_first_only s
    = (Returns r, s', [Mkdtemp] ++ mid ++ [Rmtree (mkdtemp w)]) /\
    count is_Rmtree mid = 0.
Proof.
  destruct (tts_json_body w file return_first_only s) as (r & s' & mid & E & Hk).
  exists r, s', mid. split; [exact E|].
  apply handler_events_count; [|exact Hk].
  intros ev Hev. destruct ev; try reflexivity; discriminate Hev.
Qed.



(** X14. With return_first_only, POST /tts looks at the first entry of the
    list and at no other: it asks for one synthesis when that entry has
    text and for none when it has not, and it answers with that entry's
    file or, when the entry gave no file, with the error body, whatever
    the entries after it hold. *)
Theorem tts_first_only_looks_at_the_first_entry
    (w : World) (file : UploadFile) (content : string) (data : pyval)
    (first : pyval) (others : list pyval) (s : EdgeTTS) :
  upload_text file = Returns content ->
  upload_json file = Returns data ->
  upload_batch data = Some (first :: others) ->
  is_upload_request first = true ->
  synthesis_requests (events (process_tts_json w file true s))
  = (if has_text first then [upload_spoken w (0, first)] else []) /\
  value (process_tts_json w file true s)
  = Returns (if spoken_ok w (0, first)
             then FileResponse (output_path_of w 0 first) "audio/mpeg"
                    (os_path_basename w (output_path_of w 0 first))
             else error_body "No speech files could be generated").
Proof.
  intros Htext Hjson Hbatch Hfirst.
  assert (Hall : forallb is_upload_request (to_process true (first :: others)) = true).
  { simpl. rewrite Hfirst. reflexivity. }
  destruct (tts_json_exact w file true content data (first :: others) s
              Htext Hjson Hbatch Hall) as (s' & t & E & Hreq & _).
  rewrite E. unfold value, events. cbn [fst snd]. split.
  - simpl. rewrite synthesis_requests_app, Hreq. simpl. rewrite app_nil_r.
    unfold with_text_from. simpl. destruct (has_text first); reflexivity.
  - unfold upload_files, enumerate. simpl.
    destruct (spoken_ok w (0, first)); reflexivity.
Qed.

Lemma tts_first_only_looks_at_the_first_entry_witness :
  upload_batch (Sample.batch Sample.silent_then_hello) = Some Sample.silent_then_hello /\
  is_upload_request (Sample.request [("text", PyStr "")]) = true /\
  synthesis_requests
    (events (process_tts_json (Sample.linux [])
               (Sample.upload (Sample.batch Sample.silent_then_hello)) true EdgeTTS_init))
  = [] /\
  value (process_tts_json (Sample.linux [])
           (Sample.upload (Sample.batch Sample.silent_then_hello)) true EdgeTTS_init)
  = Returns (error_body "No speech files could be generated").
Proof.
  split; [reflexivity|]. split; [reflexivity|].
  exact (tts_first_only_looks_at_the_first_entry (Sample.linux [])
           (Sample.upload (Sample.batch Sample.silent_then_hello))
           "(the uploaded text)" (Sample.batch Sample.silent_then_hello)
           (Sample.request [("text", PyStr "")]) [Sample.request [("text", PyStr "hello")]]
           EdgeTTS_init eq_refl eq_refl eq_refl eq_refl).
Defined.



(* ------------------------------------------------------------------ *)
(** ** The batch theorems at a batch of three requests *)

Lemma batch_run_is_request_by_request_witness :
  json_load_path (Sample.with_batch_file three_requests) "batch.json"
  = Returns (Sample.batch three_requests) /\
  batch_requests (Sample.batch three_requests) = Some three_requests /\
  bridge_passes (Sample.with_batch_file three_requests) = true /\
  events (process_json_input (Sample.with_batch_file three_requests) "batch.json"
            (mkEdgeTTS (PyStr "en-GB-RyanNeural") (PyStr "-50%") (PyStr "+90%")))
  = List.concat
      (map (fun ir => events (process_json_request (Sample.with_batch_file three_requests)
                                ir EdgeTTS_init))
           (enumerate three_requests)).
Proof.
  split; [reflexivity|]. split; [reflexivity|]. split; [reflexivity|].
  exact (proj1 (batch_run_is_request_by_request (Sample.with_batch_file three_requests)
                  "batch.json" (Sample.batch three_requests) three_requests
                  (mkEdgeTTS (PyStr "en-GB-RyanNeural") (PyStr "-50%") (PyStr "+90%"))
                  eq_refl eq_refl eq_refl)).
Defined.



(* ------------------------------------------------------------------ *)
(** ** [list_voices] *)

Lemma voice_entry_run (voice : pyval) (s : EdgeTTS) :
  is_voice voice = true ->
  voice_entry voice s = (Returns (voice_info voice), s, [voice_line voice]).
Proof.
  destruct voice as [| | | | | |items]; try discriminate.
  unfold is_voice, voice_entry, voice_info, voice_line, friendly_name_of, field_of.
  unfold_monad. simpl.
  destruct (dict_lookup "ShortName" items); [reflexivity|discriminate].
Qed.

(** A voice without a short name stops the loop before its line is
    printed. *)
Lemma voice_entry_raises (voice : pyval) (s : EdgeTTS) :
  is_voice voice = false ->
  exists e, voice_entry voice s = (Raises e, s, []).
Proof.
  destruct voice as [| | | | | |items]; try (intros _; eexists; reflexivity).
  unfold is_voice, voice_entry. unfold_monad. simpl.
  destruct (dict_lookup "ShortName" items); [discriminate|].
  intros _. eexists. reflexivity.
Qed.

Lemma voices_loop_run (voices : list pyval) :
  forallb is_voice voices = true ->
  forall (acc : list pyval) (s : EdgeTTS),
    for_fold voices acc
      (fun result voice => bind (voice_entry voice) (fun entry => ret (result ++ [entry]))) s
    = (Returns (acc ++ map voice_info voices), s, map voice_line voices).
Proof.
  induction voices as [|voice voices IH]; intros Hall acc s.
  - simpl. unfold ret. rewrite app_nil_r. reflexivity.
  - simpl in Hall. apply andb_true_iff in Hall as [Hvoice Hall].
    cbn [for_fold]. unfold bind at 1. unfold bind at 1.
    rewrite (voice_entry_run voice s Hvoice). unfold ret at 1. cbn [app].
    rewrite (IH Hall). cbn [map app]. rewrite <- app_assoc. reflexivity.
Qed.

Lemma voices_loop_raises (voices : list pyval) :
  forallb is_voice voices = false ->
  forall (acc : list pyval) (s : EdgeTTS),
  exists e lines,
    for_fold voices acc
      (fun result voice => bind (voice_entry voice) (fun entry => ret (result ++ [entry]))) s
    = (Raises e, s, lines) /\
    forall ev, In ev lines -> exists voice, In voice voices /\ ev = voice_line voice.
Proof.
  induction voices as [|voice voices IH]; intros Hall acc s; [discriminate|].
  simpl in Hall. cbn [for_fold]. unfold bind at 1. unfold bind at 1.
  destruct (is_voice voice) eqn:Hvoice.
  - rewrite (voice_entry_run voice s Hvoice). unfold ret at 1. cbn [app].
    destruct (IH Hall (acc ++ [voice_info voice]) s) as (e & lines & -> & Hlines).
    exists e, (voice_line voice :: lines). split; [reflexivity|].
    intros ev [<-|Hin].
    + exists voice. split; [left; reflexivity|reflexivity].
    + destruct (Hlines ev Hin) as (v & Hv & ->). exists v. split; [right; exact Hv|reflexivity].
  - destruct (voice_entry_raises voice s Hvoice) as (e & ->).
    exists e, []. split; [reflexivity|]. intros ev [].
Qed.

(** X16. [list_voices] never raises and leaves the engine alone: whatever
    the voice service does, it returns a list. When the service fails, or
    gives something that cannot be iterated, the list is empty and the
    error is printed with its traceback. *)
Theorem list_voices_never_raises (h : Host) (s : EdgeTTS) :
  (exists entries : list pyval, value (list_voices h s) = Returns (PyList entries)) /\
  engine (list_voices h s) = s /\
  (forall e, edge_tts_list_voices h = Raises e ->
     list_voices h s
     = (Returns (PyList []), s,
        [Print [Lit "Error listing voices: "; Lit (exn_str e)]; PrintTraceback])).
Proof.
  unfold list_voices. unfold_monad.
  destruct (edge_tts_list_voices h) as [voices|e]; simpl.
  2: { split; [eauto|]. split; [reflexivity|]. intros e' [= <-]. reflexivity. }
  assert (Hloop : forall items : list pyval,
            (exists entries lines,
               for_fold items []
                 (fun result voice =>
                    bind (voice_entry voice) (fun entry => ret (result ++ [entry]))) s
               = (Returns entries, s, lines)) \/
            (exists e lines,
               for_fold items []
                 (fun result voice =>
                    bind (voice_entry voice) (fun entry => ret (result ++ [entry]))) s
               = (Raises e, s, lines))).
  { intros items. destruct (forallb is_voice items) eqn:Hall.
    - left. rewrite (voices_loop_run items Hall). eauto.
    - right. destruct (voices_loop_raises items Hall [] s) as (e & lines & -> & _). eauto. }
  split; [|split; [|discriminate]].
  - destruct (py_iter voices) as [items|e]; simpl; [|eauto].
    unfold bind, ret in Hloop.
    destruct (Hloop items) as [(entries & lines & ->)|(e & lines & ->)]; simpl; eauto.
  - destruct (py_iter voices) as [items|e]; simpl; [|reflexivity].
    unfold bind, ret in Hloop.
    destruct (Hloop items) as [(entries & lines & ->)|(e & lines & ->)]; reflexivity.
Qed.

(** X17. On a list of voices that all have a short name, [list_voices]
    returns one entry per voice, in the order of the service, after
    printing the heading and one line per voice. The name of an entry is
    the voice's FriendlyName, else its Name, else Unknown; a missing
    gender is Unknown and a missing locale the empty string. *)
Theorem list_voices_lists_every_voice (h : Host) (voices : list pyval) (s : EdgeTTS) :
  edge_tts_list_voices h = Returns (PyList voices) ->
  forallb is_voice voices = true ->
  list_voices h s
  = (Returns (PyList (map voice_info voices)), s,
     Print [Lit "Available voices:"] :: map voice_line voices).
Proof.
  intros Hvoices Hall. pose proof (voices_loop_run voices Hall [] s) as E.
  unfold list_voices. unfold_monad. unfold bind, ret in E.
  rewrite Hvoices. simpl. rewrite E. simpl. rewrite ?app_nil_r. reflexivity.
Qed.

Lemma list_voices_lists_every_voice_witness :
  forallb is_voice [madhur; guy] = true /\
  list_voices (voice_host (Returns (PyList [madhur; guy]))) EdgeTTS_init
  = (Returns (PyList
       [PyDict [("short_name", PyStr "hi-IN-MadhurNeural");
                ("friendly_name", PyStr "Microsoft Madhur Online (Natural) - Hindi (India)");
                ("gender", PyStr "Male");
                ("locale", PyStr "hi-IN")];
        PyDict [("short_name", PyStr "en-US-GuyNeural");
                ("friendly_name",
                 PyStr "Microsoft Server Speech Text to Speech Voice (en-US, GuyNeural)");
                ("gender", PyStr "Unknown");
                ("locale", PyStr "")]]),
     EdgeTTS_init,
     [Print [Lit "Available voices:"];
      Print [Lit "- "; Val (PyStr "hi-IN-MadhurNeural"); Lit ": ";
             Val (PyStr "Microsoft Madhur Online (Natural) - Hindi (India)"); Lit " (";
             Val (PyStr "Male"); Lit ")"];
      Print [Lit "- "; Val (PyStr "en-US-GuyNeural"); Lit ": ";
             Val (PyStr "Microsoft Server Speech Text to Speech Voice (en-US, GuyNeural)");
             Lit " ("; Val (PyStr "Unknown"); Lit ")"]]).
Proof.
  split; [reflexivity|].
  exact (list_voices_lists_every_voice (voice_host (Returns (PyList [madhur; guy])))
           [madhur; guy] EdgeTTS_init eq_refl eq_refl).
Defined.

(** X18. [list_voices] is all or nothing: one voice without a short name
    makes it return the empty list, although the voices before it have
    had their lines printed. The run ends with the error and its
    traceback. *)
Theorem list_voices_is_all_or_nothing (h : Host) (voices : list pyval) (s : EdgeTTS) :
  edge_tts_list_voices h = Returns (PyList voices) ->
  forallb is_voice voices = false ->
  value (list_voices h s) = Returns (PyList []) /\
  exists (e : exn) (lines : list event),
    events (list_voices h s)
    = Print [Lit "Available voices:"] :: lines
      ++ [Print [Lit "Error listing voices: "; Lit (exn_str e)]; PrintTraceback] /\
    forall ev, In ev lines -> exists voice, In voice voices /\ ev = voice_line voice.
Proof.
  intros Hvoices Hall.
  destruct (voices_loop_raises voices Hall [] s) as (e & lines & E & Hlines).
  unfold list_voices. unfold_monad. unfold bind, ret in E.
  rewrite Hvoices. simpl. rewrite E. unfold value, events. simpl.
  split; [reflexivity|].
  exists e, lines. split; [|exact Hlines]. rewrite ?app_nil_r. reflexivity.
Qed.

Lemma list_voices_is_all_or_nothing_witness :
  forallb is_voice [madhur; nameless; guy] = false /\
  value (list_voices (voice_host (Returns (PyList [madhur; nameless; guy]))) EdgeTTS_init)
  = Returns (PyList []).
Proof.
  split; [reflexivity|].
  exact (proj1 (list_voices_is_all_or_nothing
                  (voice_host (Returns (PyList [madhur; nameless; guy])))
                  [madhur; nameless; guy] EdgeTTS_init eq_refl eq_refl)).
Defined.

(** At that list, the line of the first voice is printed before the
    error. *)
Example list_voices_prints_before_it_fails :
  events (list_voices (voice_host (Returns (PyList [madhur; nameless; guy]))) EdgeTTS_init)
  = [Print [Lit "Available voices:"];
     voice_line madhur;
     Print [Lit "Error listing voices: "; Lit "'ShortName'"];
     PrintTraceback].
Proof. reflexivity. Qed.

(* ------------------------------------------------------------------ *)
(** ** GET /test and [speak_text] *)

(** X19. GET /test never raises and asks for one synthesis, of the test
    sentence in en-US-GuyNeural at +0% and +0% into test_output.mp3 under
    the output directory. It reports success, with the size of the file,
    exactly when that synthesis came back, the file exists and its size
    can be read; when the size cannot be read it reports the error. It
    leaves the shared engine set to the test voice. *)
Theorem test_tts_answer (w : World) (h : Host) (s : EdgeTTS) :
  value (test_tts w h s)
  = Returns
      (if synthesis_ok w (test_request w)
          && os_path_exists h (os_path_join w (OUTPUT_DIR w) "test_output.mp3")
       then
         match os_path_getsize h (os_path_join w (OUTPUT_DIR w) "test_output.mp3") with
         | Returns file_size =>
             JSONBody (PyDict [("status", PyStr "success");
                               ("message", PyStr "TTS test successful");
                               ("file_size", PyInt file_size);
                               ("download_url", PyStr "/get-file/test_output.mp3")])
         | Raises e =>
             JSONBody (PyDict [("status", PyStr "error");
                               ("message", PyStr ("TTS test error: " ++ exn_str e))])
         end
       else JSONBody (PyDict [("status", PyStr "error");
                              ("message", PyStr "TTS test failed")])) /\
  engine (test_tts w h s) = mkEdgeTTS (PyStr "en-US-GuyNeural") (PyStr "+0%") (PyStr "+0%") /\
  synthesis_requests (events (test_tts w h s)) = [test_request w].
Proof.
  destruct (http_generate_speech_exact w (PyStr "This is a test of the Edge TTS API.")
              (PyStr "en-US-GuyNeural") (PyStr "+0%") (PyStr "+0%")
              (PyStr (os_path_join w (OUTPUT_DIR w) "test_output.mp3")) (PyBool false)
              s eq_refl) as (first & last & E).
  pose proof (speak_async_requests w (PyStr "This is a test of the Edge TTS API.")
                (PyStr (os_path_join w (OUTPUT_DIR w) "test_output.mp3")) (PyBool false)
                (mkEdgeTTS (PyStr "en-US-GuyNeural") (PyStr "+0%") (PyStr "+0%"))) as Hreq.
  change (pipeline_request w (PyStr "This is a test of the Edge TTS API.")
            (PyStr (os_path_join w (OUTPUT_DIR w) "test_output.mp3")) (PyBool false)
            (mkEdgeTTS (PyStr "en-US-GuyNeural") (PyStr "+0%") (PyStr "+0%")))
    with (test_request w) in E, Hreq.
  unfold test_tts, try_except. rewrite (bind_runs _ _ _ _ _ _ E).
  unfold value, engine, events in *. cbn [fst snd].
  destruct (synthesis_ok w (test_request w)); cbn [andb];
    [destruct (os_path_exists h _); cbn [andb];
     [destruct (os_path_getsize h _) as [n|e]|]|];
    unfold_monad; simpl;
    (split; [reflexivity|]); (split; [reflexivity|]);
    rewrite ?app_nil_r, ?synthesis_requests_app; simpl;
    rewrite ?synthesis_requests_app, Hreq; reflexivity.
Qed.


